(** * overleaf-sync-rs: the socket.io client ([src/client.py])

    A shallow embedding of [main] of [src/socketio-client/src/client.py]
    and the properties of the connect / join / wait / extract / disconnect
    flow.

    The client is a straight-line Python function with one polling loop.
    It talks to the third-party [socketIO_client] package, whose code is
    not part of the repository: every call into it is answered here by a
    [world], a script of what each call delivers to the registered
    callbacks and whether it returns or raises.  Theorems are stated for
    every world, so they hold whatever the package and the server do. *)

From Stdlib Require Import ZArith QArith Ascii Lia.
From stdpp Require Import gmap strings list fin_maps.

Local Set Warnings "-register-all".
Local Open Scope string_scope.
Local Open Scope Z_scope.
Local Open Scope list_scope.

(** ** Python values

    The values that reach the client: the three command-line strings,
    the float of [time.time()], and the payloads that [socketIO_client]
    decodes from JSON (null, booleans, numbers, strings, arrays, objects
    with string keys). *)

Module Py.

Inductive value : Type :=
| VNone
| VBool (b : bool)
| VInt (z : Z)
| VFloat (q : Q)
| VStr (s : string)
| VList (l : list value)
| VDict (d : gmap string value).

(** The exceptions the flow can meet.  [LibraryError] stands for what
    [socketIO_client] raises on its own (ConnectionError, TimeoutError and
    the like), named by its class. *)
Inductive exn : Type :=
| AttributeError (msg : string)
| TypeError (msg : string)
| ValueError (msg : string)
| IndexError (msg : string)
| LibraryError (class msg : string).

(** The result of evaluating an expression: a value or a raised
    exception. *)
Inductive res (A : Type) : Type :=
| Ok (a : A)
| Err (e : exn).
Arguments Ok {A} a.
Arguments Err {A} e.

(** [type(v).__name__] *)
Definition type_name (v : value) : string :=
  match v with
  | VNone => "NoneType"
  | VBool _ => "bool"
  | VInt _ => "int"
  | VFloat _ => "float"
  | VStr _ => "str"
  | VList _ => "list"
  | VDict _ => "dict"
  end.

(** [isinstance(v, dict)] *)
Definition is_mapping (v : value) : bool :=
  match v with VDict _ => true | _ => false end.

(** [v is None] *)
Definition is_None (v : value) : bool :=
  match v with VNone => true | _ => false end.

(** [self.get(key, dflt)]: the method exists on dicts only; on every
    other value of the model the attribute lookup raises. *)
Definition method_get (self : value) (key : string) (dflt : value) : res value :=
  match self with
  | VDict d =>
      Ok (match d !! key with
          | Some v => v
          | None => dflt
          end)
  | _ =>
      Err (AttributeError ("'" +:+ type_name self +:+ "' object has no attribute 'get'"))
  end.

(** [int(x)] on a float: truncation toward zero.  A finite double is a
    rational number, which is how the clock reading is carried. *)
Definition int_of_float (q : Q) : Z := Z.quot (Qnum q) (Zpos (Qden q)).

(** [template.format( *args )] for templates whose replacement fields are
    the automatic ones, the two-character field written with an opening
    and a closing brace, and for string arguments (for which [format]
    inserts the argument itself).  Doubled braces are literal braces. *)
Fixpoint format (template : string) (args : list string) : res string :=
  match template with
  | EmptyString => Ok EmptyString
  | String c rest =>
      if Ascii.eqb c "{"%char then
        match rest with
        | String c' rest' =>
            if Ascii.eqb c' "}"%char then
              match args with
              | a :: args' =>
                  match format rest' args' with
                  | Ok s => Ok (a +:+ s)
                  | Err e => Err e
                  end
              | [] =>
                  Err (IndexError "Replacement index out of range for positional args tuple")
              end
            else if Ascii.eqb c' "{"%char then
              match format rest' args with
              | Ok s => Ok (String "{"%char s)
              | Err e => Err e
              end
            else Err (ValueError "unsupported replacement field")
        | EmptyString => Err (ValueError "Single '{' encountered in format string")
        end
      else if Ascii.eqb c "}"%char then
        match rest with
        | String c' rest' =>
            if Ascii.eqb c' "}"%char then
              match format rest' args with
              | Ok s => Ok (String "}"%char s)
              | Err e => Err e
              end
            else Err (ValueError "Single '}' encountered in format string")
        | EmptyString => Err (ValueError "Single '}' encountered in format string")
        end
      else
        match format rest args with
        | Ok s => Ok (String c s)
        | Err e => Err e
        end
  end.

End Py.
Import Py.


(** ** The client's effects

    [main] mutates one captured variable ([project_infos], through
    [nonlocal]), registers callbacks on the [SocketIO] object, and calls
    into the library, which calls the registered callbacks back while it
    waits.  A computation takes the store, emits the actions it performs
    in order, and ends normally, by a raised exception, or is still in the
    polling loop when the fuel is spent. *)

Module Client.

(** The two callables the client registers: [lambda: None] (line 38) and
    the closure [set_project_infos] (lines 25-27). *)
Inductive callback : Type :=
| Lambda_None
| Set_project_infos.

(** What the client does, as seen from outside. *)
Inductive action : Type :=
| Call_time
| Call_SocketIO (url : string) (params headers : gmap string value)
| Call_on (event : string) (cb : callback)
| Call_wait_for_callbacks
| Call_wait (seconds : Z)
| Fire (event : string) (args : list value)
| Read_connected (b : bool)
| Call_disconnect
| Call_print (v : value).

Record store : Type := Store {
  project_infos : value;              (* the captured variable of line 23 *)
  callbacks : gmap string callback;   (* socket_io's callbacks, by event name *)
  waits : nat                         (* calls of [socket_io.wait] made so far *)
}.

Inductive outcome (A : Type) : Type :=
| Normal (a : A)
| Raised (e : exn)
| Running.
Arguments Normal {A} a.
Arguments Raised {A} e.
Arguments Running {A}.

Record run (A : Type) : Type := Run {
  emitted : list action;
  final : store;
  result : outcome A
}.
Arguments Run {A} emitted final result.
Arguments emitted {A} r.
Arguments final {A} r.
Arguments result {A} r.

Definition M (A : Type) : Type := store -> run A.

#[export] Instance M_ret : MRet M := fun A a s => Run [] s (Normal a).

#[export] Instance M_bind : MBind M := fun A B k m s =>
  let r := m s in
  match result r with
  | Normal a =>
      let r' := k a (final r) in
      Run (emitted r ++ emitted r') (final r') (result r')
  | Raised e => Run (emitted r) (final r) (Raised e)
  | Running => Run (emitted r) (final r) Running
  end.

Definition emit (a : action) : M unit := fun s => Run [a] s (Normal tt).
Definition raise {A} (e : exn) : M A := fun s => Run [] s (Raised e).
Definition out_of_fuel {A} : M A := fun s => Run [] s Running.
Definition lift {A} (r : res A) : M A :=
  match r with
  | Ok a => mret a
  | Err e => raise e
  end.

Definition read_project_infos : M value := fun s => Run [] s (Normal (project_infos s)).
Definition assign_project_infos (v : value) : M unit := fun s =>
  Run [] (Store v (callbacks s) (waits s)) (Normal tt).
Definition read_callbacks : M (gmap string callback) := fun s =>
  Run [] s (Normal (callbacks s)).
Definition register (event : string) (cb : callback) : M unit := fun s =>
  Run [] (Store (project_infos s) (<[event := cb]> (callbacks s)) (waits s)) (Normal tt).
Definition next_wait : M nat := fun s =>
  Run [] (Store (project_infos s) (callbacks s) (S (waits s))) (Normal (waits s)).

(** *** The callbacks *)

(** Lines 25-27: the extraction, [project_infos_dict.get("project", {})]. *)
Definition extraction (project_infos_dict : value) : res value :=
  method_get project_infos_dict "project" (VDict ∅).

Definition set_project_infos (project_infos_dict : value) : M unit :=
  v ← lift (extraction project_infos_dict);
  assign_project_infos v.

(** [cb( *args )]: a call with the wrong number of arguments raises. *)
Definition call (cb : callback) (args : list value) : M unit :=
  match cb, args with
  | Lambda_None, [] => mret tt
  | Lambda_None, _ =>
      raise (TypeError "<lambda>() takes 0 positional arguments")
  | Set_project_infos, [project_infos_dict] => set_project_infos project_infos_dict
  | Set_project_infos, _ =>
      raise (TypeError "set_project_infos() takes exactly 1 positional argument")
  end.

(** *** The library, as the client sees it

    The events a library call receives are handed, in order, to the
    callback registered under their name (events without one are
    dropped); an exception of a callback leaves the call at once.  After
    the events, the call returns or raises on its own. *)

Record reply : Type := Reply {
  incoming : list (string * list value);
  failure : option exn
}.

Record world : Type := World {
  clock : Q;                          (* what [time.time()] returns *)
  SocketIO_raises : option exn;       (* the constructor: handshake *)
  wait_for_callbacks_reply : reply;
  wait_reply : nat -> reply;          (* the k-th call of [wait], from 0 *)
  connected_now : bool;               (* [socket_io.connected] when read *)
  disconnect_raises : option exn
}.

Fixpoint dispatch (events : list (string * list value)) : M unit :=
  match events with
  | [] => mret tt
  | (name, args) :: events' =>
      cbs ← read_callbacks;
      match cbs !! name with
      | Some cb => emit (Fire name args);; call cb args;; dispatch events'
      | None => dispatch events'
      end
  end.

Definition answer (r : reply) : M unit :=
  dispatch (incoming r);;
  match failure r with
  | Some e => raise e
  | None => mret tt
  end.

Section Library.
Variable w : world.

Definition time_time : M Q := emit Call_time;; mret (clock w).

Definition SocketIO (url : string) (params headers : gmap string value) : M unit :=
  emit (Call_SocketIO url params headers);;
  match SocketIO_raises w with
  | Some e => raise e
  | None => mret tt
  end.

Definition on (event : string) (cb : callback) : M unit :=
  emit (Call_on event cb);; register event cb.

Definition wait_for_callbacks : M unit :=
  emit Call_wait_for_callbacks;; answer (wait_for_callbacks_reply w).

Definition wait (seconds : Z) : M unit :=
  k ← next_wait;
  emit (Call_wait seconds);; answer (wait_reply w k).

Definition connected : M bool :=
  emit (Read_connected (connected_now w));; mret (connected_now w).

Definition disconnect : M unit :=
  emit Call_disconnect;;
  match disconnect_raises w with
  | Some e => raise e
  | None => mret tt
  end.

Definition print (v : value) : M unit := emit (Call_print v).

(** *** [main], after the arguments are parsed (lines 19-49) *)

Definition BASE_URL : string := "https://www.overleaf.com".

(** Line 29. *)
Definition cookie_header (GCLB overleaf_session_2 : string) : res string :=
  format "GCLB={}; overleaf_session2={}" [GCLB; overleaf_session_2].

(** Lines 31-36: the session parameters and the construction. *)
Definition session_builder (GCLB overleaf_session_2 project_id : string) : M unit :=
  cookie ← lift (cookie_header GCLB overleaf_session_2);
  now ← time_time;
  SocketIO BASE_URL
    (<["projectId" := VStr project_id]> (<["t" := VInt (int_of_float now)]> ∅))
    (<["Cookie" := VStr cookie]> ∅).

(** Lines 38-39. *)
Definition connection_engine : M unit :=
  on "connect" Lambda_None;;
  wait_for_callbacks.

(** Lines 43-44: [while project_infos is None: socket_io.wait(1)].  The
    fuel bounds the number of iterations that are run. *)
Fixpoint poll (fuel : nat) : M unit :=
  v ← read_project_infos;
  if is_None v then
    match fuel with
    | O => out_of_fuel
    | S fuel' => wait 1;; poll fuel'
    end
  else mret tt.

(** Lines 41-44. *)
Definition response_waiter (fuel : nat) : M unit :=
  on "joinProjectResponse" Set_project_infos;;
  poll fuel.

(** Lines 46-47. *)
Definition teardown : M unit :=
  c ← connected;
  if (c : bool) then disconnect else mret tt.

Definition main_body (GCLB overleaf_session_2 project_id : string) (fuel : nat) : M unit :=
  assign_project_infos VNone;;
  session_builder GCLB overleaf_session_2 project_id;;
  connection_engine;;
  response_waiter fuel;;
  teardown;;
  v ← read_project_infos;
  print v.

End Library.

(** The store [main] starts from: no callback yet, no wait yet. *)
Definition start : store := Store VNone ∅ 0.

Definition main (GCLB overleaf_session2 project_id : string) (w : world) (fuel : nat) : run unit :=
  main_body w GCLB overleaf_session2 project_id fuel start.

(** The exit status of the process: an exception that leaves [main] ends
    the interpreter with status 1, a return with status 0. [Running] is a
    process that has not exited. *)
Definition exit_status {A} (o : outcome A) : option Z :=
  match o with
  | Normal _ => Some 0
  | Raised _ => Some 1
  | Running => None
  end.

End Client.
Import Client.

(** ** Notions used in the statements

    Stores and traces of [main] at its stages, classifiers of actions,
    and the worlds on which the statements are tried. *)

(** The firing of a callback registered in [cbs]. *)
Definition fires_of (cbs : gmap string callback) (a : action) : Prop :=
  exists name args cb, a = Fire name args /\ cbs !! name = Some cb.

(** The store after line 38, and after line 41. *)
Definition connecting : store := Store VNone (<["connect" := Lambda_None]> ∅) 0.
Definition armed : store :=
  Store VNone
    (<["joinProjectResponse" := Set_project_infos]> (<["connect" := Lambda_None]> ∅)) 0.

(** The arguments of the constructor, lines 32-36. *)
Definition params (project_id : string) (w : world) : gmap string value :=
  <["projectId" := VStr project_id]> (<["t" := VInt (int_of_float (clock w))]> ∅).
Definition headers (v1 v2 : string) : gmap string value :=
  <["Cookie" := VStr ("GCLB=" +:+ v1 +:+ "; overleaf_session2=" +:+ v2)]> ∅.

(** What [main] has done when the constructor returns or raises. *)
Definition built (v1 v2 project_id : string) (w : world) : list action :=
  [Call_time; Call_SocketIO BASE_URL (params project_id w) (headers v1 v2)].

(** Lines 43-49, from the store reached after line 41. *)
Definition after_arming (w : world) (fuel : nat) : M unit :=
  poll w fuel;;
  teardown w;;
  v ← read_project_infos;
  print v.

(** [k] runs of the loop body, without the test: the store they leave is
    the one the loop's test number [k] (from 0) looks at. *)
Fixpoint wait_times (w : world) (k : nat) : M unit :=
  match k with
  | O => mret tt
  | S k' => wait w 1;; wait_times w k'
  end.

(** The slot the test number [k] reads, when the first [k] waits return. *)
Definition slot_at (w : world) (s : store) (k : nat) : value :=
  project_infos (final (wait_times w k s)).

(** The tests number 0 to [k-1] were reached and each found [None]. *)
Definition all_None_before (w : world) (s : store) (k : nat) : Prop :=
  forall j, (j < k)%nat ->
    result (wait_times w j s) = Normal tt /\ is_None (slot_at w s j) = true.

(** What lines 46-49 do once the loop has left with the slot holding [v]. *)
Definition closing (w : world) (v : value) : list action * outcome unit :=
  if connected_now w then
    match disconnect_raises w with
    | Some e => ([Read_connected true; Call_disconnect], Raised e)
    | None => ([Read_connected true; Call_disconnect; Call_print v], Normal tt)
    end
  else ([Read_connected false; Call_print v], Normal tt).

(** Classifiers of actions, and the number of actions of a kind in a
    trace. *)
Definition is_time (a : action) : bool :=
  match a with Call_time => true | _ => false end.
Definition is_SocketIO (a : action) : bool :=
  match a with Call_SocketIO _ _ _ => true | _ => false end.
Definition is_on (event : string) (a : action) : bool :=
  match a with Call_on ev _ => String.eqb ev event | _ => false end.
Definition is_wait (a : action) : bool :=
  match a with Call_wait _ => true | _ => false end.
Definition is_fire (event : string) (a : action) : bool :=
  match a with Fire ev _ => String.eqb ev event | _ => false end.
Definition is_disconnect (a : action) : bool :=
  match a with Call_disconnect => true | _ => false end.
Definition is_print (a : action) : bool :=
  match a with Call_print _ => true | _ => false end.

Definition count (f : action -> bool) (tr : list action) : nat :=
  length (List.filter f tr).

(** The actions of the three parts of a trace that follow the
    construction: the wait for the callbacks, the loop, lines 46-49. *)
Definition in_handshake (a : action) : Prop := exists args, a = Fire "connect" args.
Definition in_loop (a : action) : Prop :=
  a = Call_wait 1 \/ exists name args, a = Fire name args.
Definition in_closing (a : action) : Prop :=
  (exists b, a = Read_connected b) \/ a = Call_disconnect \/ exists v, a = Call_print v.

(** A connection error at the handshake. *)
Definition refused : world :=
  World (1700000000 # 1) (Some (LibraryError "ConnectionError" "handshake failed"))
        (Reply [] None) (fun _ => Reply [] None) true None.

(** The server answers [connect] only once the client polls. *)
Definition late_connect : world :=
  World (1700000000 # 1) None (Reply [] None)
        (fun k =>
           match k with
           | O => Reply [("connect", []);
                         ("joinProjectResponse",
                          [VDict {[ "project" := VDict {[ "rootDoc_id" := VStr "d1" ]} ]}])]
                        None
           | S _ => Reply [] None
           end)
        true None.

(** The end-to-end scenario of the specification: the server answers
    [connect], then emits [joinProjectResponse]. *)
Definition end_to_end : world :=
  World (1700000000 # 1) None (Reply [("connect", [])] None)
        (fun k =>
           match k with
           | O => Reply [("joinProjectResponse",
                          [VDict {[ "project" := VDict {[ "rootDoc_id" := VStr "d1" ]} ]}])]
                        None
           | S _ => Reply [] None
           end)
        true None.

(** The same, with a connection that the library reports closed when
    the result is there. *)
Definition end_to_end_closed : world :=
  World (clock end_to_end) None (wait_for_callbacks_reply end_to_end)
        (wait_reply end_to_end) false None.

(** Everything [main] does before line 46. *)
Definition early (a : action) : Prop :=
  match a with
  | Read_connected _ | Call_disconnect | Call_print _ => False
  | Call_wait seconds => seconds = 1
  | _ => True
  end.

(** What the delivery of an event leaves in the slot, once the response
    handler is registered. *)
Definition slot_after (slot : value) (ev : string * list value) : value :=
  if String.eqb (fst ev) "joinProjectResponse" then
    match snd ev with
    | [p] => match extraction p with
             | Ok v => v
             | Err _ => slot
             end
    | _ => slot
    end
  else slot.

(** An event that raises nothing and leaves an unset slot unset. *)
Definition harmless (ev : string * list value) : bool :=
  if String.eqb (fst ev) "joinProjectResponse" then
    match snd ev with
    | [p] => match extraction p with
             | Ok VNone => true
             | _ => false
             end
    | _ => false
    end
  else if String.eqb (fst ev) "connect" then
    match snd ev with
    | [] => true
    | _ => false
    end
  else true.

(** A reply made of harmless events, that returns. *)
Definition uneventful (r : reply) : bool :=
  forallb harmless (incoming r) &&
  match failure r with
  | None => true
  | Some _ => false
  end.

(** The response event is among those a call receives. *)
Definition arrives (r : reply) : bool :=
  existsb (fun ev => String.eqb (fst ev) "joinProjectResponse") (incoming r).

(** A server that accepts the connection and never answers. *)
Definition silent_server : world :=
  World (1700000000 # 1) None (Reply [("connect", [])] None)
        (fun _ => Reply [] None) true None.

(** Every response event carries one mapping whose [project] is [None]. *)
Definition null_project (ev : string * list value) : Prop :=
  fst ev = "joinProjectResponse" ->
  exists d : gmap string value, snd ev = [VDict d] /\ d !! "project" = Some VNone.

(** A server whose response has a null [project]. *)
Definition null_project_server : world :=
  World (1700000000 # 1) None (Reply [("connect", [])] None)
        (fun k =>
           match k with
           | O => Reply [("joinProjectResponse", [VDict {[ "project" := VNone ]}])] None
           | S _ => Reply [] None
           end)
        true None.

(** A sequence of firings of the response handler, one payload each. *)
Definition firings (payloads : list value) : list (string * list value) :=
  map (fun p => ("joinProjectResponse", [p])) payloads.

(** A server that sends two responses before the client looks again. *)
Definition two_responses : world :=
  World (1700000000 # 1) None (Reply [("connect", [])] None)
        (fun k =>
           match k with
           | O => Reply (firings [VDict {[ "project" := VDict {[ "name" := VStr "first" ]} ]};
                                  VDict {[ "project" := VDict {[ "name" := VStr "second" ]} ]}])
                        None
           | S _ => Reply [] None
           end)
        true None.

(** A server whose connection breaks when the client disconnects. *)
Definition disconnect_fails : world :=
  World (clock end_to_end) None (wait_for_callbacks_reply end_to_end)
        (wait_reply end_to_end) true
        (Some (LibraryError "ConnectionError" "connection lost")).

(** A server that answers the join before the client has armed its
    handler, and never again. *)
Definition early_response : world :=
  World (1700000000 # 1) None
        (Reply [("connect", []);
                ("joinProjectResponse",
                 [VDict {[ "project" := VDict {[ "rootDoc_id" := VStr "d1" ]} ]}])]
               None)
        (fun _ => Reply [] None) true None.

(** A server whose response is a JSON array. *)
Definition malformed_response : world :=
  World (1700000000 # 1) None (Reply [] None)
        (fun k =>
           match k with
           | 2%nat => Reply [("connect", []);
                             ("joinProjectResponse", [VList [VStr "project"]])]
                            None
           | _ => Reply [] None
           end)
        true None.

(** An event that fires nothing or [lambda: None], without raising. *)
Definition inert (ev : string * list value) : bool :=
  negb (String.eqb (fst ev) "joinProjectResponse") && harmless ev.


(** The character occurs in the string. *)
Fixpoint contains_char (c : ascii) (s : string) : bool :=
  match s with
  | EmptyString => false
  | String c' s' => Ascii.eqb c' c || contains_char c s'
  end.

(** A server whose connection drops during the second wait. *)
Definition connection_drops : world :=
  World (1700000000 # 1) None (Reply [("connect", [])] None)
        (fun k =>
           match k with
           | 1%nat => Reply [] (Some (LibraryError "ConnectionError" "connection lost"))
           | _ => Reply [] None
           end)
        true None.

(** What the loop fires was received by one of its waits. *)
Definition from_a_wait (w : world) (a : action) : Prop :=
  a = Call_wait 1 \/
  exists name args j, a = Fire name args /\ In (name, args) (incoming (wait_reply w j)).

(** ** Generic facts about the effect monad *)

Lemma bind_run {A B} (m : M A) (k : A -> M B) (s : store) :
  (m ≫= k) s =
  match result (m s) with
  | Normal a =>
      Run (emitted (m s) ++ emitted (k a (final (m s))))
          (final (k a (final (m s)))) (result (k a (final (m s))))
  | Raised e => Run (emitted (m s)) (final (m s)) (Raised e)
  | Running => Run (emitted (m s)) (final (m s)) Running
  end.
Proof. reflexivity. Qed.

Lemma bind_normal {A B} (m : M A) (k : A -> M B) (s : store) (a : A) :
  result (m s) = Normal a ->
  (m ≫= k) s =
  Run (emitted (m s) ++ emitted (k a (final (m s))))
      (final (k a (final (m s)))) (result (k a (final (m s)))).
Proof. intros H. rewrite bind_run, H. reflexivity. Qed.

Lemma bind_raised {A B} (m : M A) (k : A -> M B) (s : store) (e : exn) :
  result (m s) = Raised e ->
  (m ≫= k) s = Run (emitted (m s)) (final (m s)) (Raised e).
Proof. intros H. rewrite bind_run, H. reflexivity. Qed.


Lemma run_eta {A} (r : run A) : Run (emitted r) (final r) (result r) = r.
Proof. destruct r; reflexivity. Qed.

(** ** The extraction (lines 25-27) *)

Lemma string_app_empty_r (s : string) : s +:+ "" = s.
Proof.
  induction s as [|c s IH]; [reflexivity |].
  change (String c (s +:+ "") = String c s). congruence.
Qed.

(** C1: on a payload that is a mapping the extraction returns the value
    stored at key [project], and the empty mapping when the key is absent;
    the handler stores exactly that in the result slot.  The two payloads
    of the specification are evaluated. *)
Theorem extraction_reads_project :
  (forall d : gmap string value,
      extraction (VDict d) = Ok (default (VDict ∅) (d !! "project"))) /\
  (forall (d : gmap string value) (v : value),
      d !! "project" = Some v -> extraction (VDict d) = Ok v) /\
  (forall d : gmap string value,
      d !! "project" = None -> extraction (VDict d) = Ok (VDict ∅)) /\
  (forall (d : gmap string value) (s : store),
      result (set_project_infos (VDict d) s) = Normal tt /\
      project_infos (final (set_project_infos (VDict d) s)) =
        default (VDict ∅) (d !! "project")) /\
  extraction
    (VDict {[ "project" := VDict (<["name" := VStr "Doc"]> {[ "id" := VStr "p1" ]}) ]}) =
    Ok (VDict (<["name" := VStr "Doc"]> {[ "id" := VStr "p1" ]})) /\
  extraction (VDict ∅) = Ok (VDict ∅).
Proof.
  split; [| split; [| split; [| split; [| split]]]].
  - intros d. unfold extraction, method_get. now destruct (d !! "project").
  - intros d v H. unfold extraction, method_get. now rewrite H.
  - intros d H. unfold extraction, method_get. now rewrite H.
  - intros d s. unfold set_project_infos, extraction, method_get.
    now destruct (d !! "project").
  - reflexivity.
  - reflexivity.
Qed.

(** C2, as stated, fails: a payload that is not a mapping makes the
    extraction raise, and a [project] bound to a value that is not a
    mapping is returned as it is. *)
Lemma extraction_not_total_nor_mapping :
  extraction (VList []) = Err (AttributeError "'list' object has no attribute 'get'") /\
  result (set_project_infos (VList []) start) =
    Raised (AttributeError "'list' object has no attribute 'get'") /\
  extraction (VDict {[ "project" := VInt 5 ]}) = Ok (VInt 5) /\
  is_mapping (VInt 5) = false.
Proof. repeat split. Qed.

(** C2, amended: on every payload that is a mapping the extraction does
    not raise, and its result is a mapping exactly when [project] is
    absent or bound to a mapping; on every other payload it raises
    AttributeError. *)
Theorem extraction_by_shape (p : value) :
  match p with
  | VDict d =>
      exists v, extraction p = Ok v /\
                v = default (VDict ∅) (d !! "project") /\
                is_mapping v = match d !! "project" with
                               | Some x => is_mapping x
                               | None => true
                               end
  | _ => exists msg, extraction p = Err (AttributeError msg)
  end.
Proof.
  destruct p as [| b | z | q | s | l | d]; try (eexists; reflexivity).
  unfold extraction, method_get.
  destruct (d !! "project") as [x|]; eexists; split_and!; reflexivity.
Qed.

(** ** The session builder (lines 29-36) *)

Lemma cookie_header_eq (v1 v2 : string) :
  cookie_header v1 v2 = Ok ("GCLB=" +:+ v1 +:+ "; overleaf_session2=" +:+ v2).
Proof.
  unfold cookie_header. cbn [format Ascii.eqb Bool.eqb].
  now rewrite string_app_empty_r.
Qed.

Lemma int_of_float_floor (q : Q) :
  (0 <= q)%Q ->
  (inject_Z (int_of_float q) <= q)%Q /\ (q < inject_Z (int_of_float q) + 1)%Q.
Proof.
  destruct q as [n d]. unfold int_of_float, Qle, Qlt. simpl. intros Hn.
  assert (Hn' : 0 <= n) by lia.
  rewrite Z.quot_div_nonneg by lia.
  pose proof (Z.mul_div_le n (Zpos d) ltac:(lia)).
  pose proof (Z.mul_succ_div_gt n (Zpos d) ltac:(lia)).
  split; lia.
Qed.

(** ** What a library call can do to the client

    A call only fires registered callbacks: it never changes the table of
    callbacks nor the count of waits, and it touches [project_infos] only
    through [set_project_infos]. *)

Lemma call_frame (cb : callback) (args : list value) (s : store) :
  emitted (call cb args s) = [] /\
  callbacks (final (call cb args s)) = callbacks s /\
  waits (final (call cb args s)) = waits s /\
  result (call cb args s) <> Running.
Proof.
  destruct cb; destruct args as [|p [|p' args]]; cbn; try (repeat split; congruence).
  unfold set_project_infos. rewrite bind_run.
  destruct (extraction p); cbn; repeat split; congruence.
Qed.

Lemma call_Lambda_None_final (args : list value) (s : store) :
  final (call Lambda_None args s) = s.
Proof. destruct args; reflexivity. Qed.

Lemma dispatch_frame (events : list (string * list value)) (s : store) :
  Forall (fires_of (callbacks s)) (emitted (dispatch events s)) /\
  callbacks (final (dispatch events s)) = callbacks s /\
  waits (final (dispatch events s)) = waits s /\
  result (dispatch events s) <> Running.
Proof.
  revert s. induction events as [|[name args] events IH]; intros s.
  - cbn. repeat split; [constructor | congruence].
  - cbn [dispatch]. rewrite bind_run. cbn [read_callbacks result emitted final].
    destruct (callbacks s !! name) as [cb|] eqn:Hcb; [| apply IH].
    rewrite bind_run. cbn [emit result emitted final].
    rewrite bind_run.
    destruct (call_frame cb args s) as (He & Hc & Hw & Hr).
    destruct (result (call cb args s)) as [[]|e|] eqn:Hres; cbn [result emitted final];
      rewrite ?He; cbn [app].
    + destruct (IH (final (call cb args s))) as (IH1 & IH2 & IH3 & IH4).
      rewrite Hc in IH1.
      repeat split; try congruence.
      constructor; [now exists name, args, cb | exact IH1].
    + repeat split; try congruence.
      constructor; [now exists name, args, cb | constructor].
    + congruence.
Qed.

Lemma answer_frame (r : reply) (s : store) :
  Forall (fires_of (callbacks s)) (emitted (answer r s)) /\
  callbacks (final (answer r s)) = callbacks s /\
  waits (final (answer r s)) = waits s /\
  result (answer r s) <> Running.
Proof.
  unfold answer. rewrite bind_run.
  destruct (dispatch_frame (incoming r) s) as (H1 & H2 & H3 & H4).
  destruct (result (dispatch (incoming r) s)) as [[]|e|] eqn:Hres;
    cbn [result emitted final]; try (repeat split; congruence).
  destruct (failure r); cbn; rewrite app_nil_r; repeat split; congruence.
Qed.

(** While only [lambda: None] is registered, a library call leaves the
    whole store as it was. *)
Lemma dispatch_inert (events : list (string * list value)) (s : store) :
  (forall name cb, callbacks s !! name = Some cb -> cb = Lambda_None) ->
  final (dispatch events s) = s.
Proof.
  intros Hcbs. induction events as [|[name args] events IH].
  - reflexivity.
  - cbn [dispatch]. rewrite bind_run. cbn [read_callbacks result emitted final].
    destruct (callbacks s !! name) as [cb|] eqn:Hcb; [| exact IH].
    rewrite (Hcbs _ _ Hcb).
    rewrite bind_run. cbn [emit result emitted final]. rewrite bind_run.
    pose proof (call_Lambda_None_final args s) as Hf.
    destruct (result (call Lambda_None args s)) as [[]|e|];
      cbn [result emitted final]; rewrite ?Hf; auto.
Qed.

Lemma answer_inert (r : reply) (s : store) :
  (forall name cb, callbacks s !! name = Some cb -> cb = Lambda_None) ->
  final (answer r s) = s.
Proof.
  intros Hcbs. unfold answer. rewrite bind_run.
  pose proof (dispatch_inert (incoming r) s Hcbs) as Hf.
  destruct (result (dispatch (incoming r) s)) as [[]|e|];
    cbn [result emitted final]; auto.
  rewrite Hf. now destruct (failure r).
Qed.

(** ** The stages of [main] *)

Lemma connecting_callbacks (name : string) (cb : callback) :
  callbacks connecting !! name = Some cb -> name = "connect" /\ cb = Lambda_None.
Proof.
  cbn. intros H. apply lookup_insert_Some in H as [[<- <-]|[_ H]]; [easy |].
  now rewrite lookup_empty in H.
Qed.

Lemma session_builder_run (v1 v2 project_id : string) (w : world) (s : store) :
  session_builder w v1 v2 project_id s =
  Run (built v1 v2 project_id w) s
      (match SocketIO_raises w with
       | Some e => Raised e
       | None => Normal tt
       end).
Proof.
  unfold session_builder. rewrite cookie_header_eq.
  unfold built, params, headers, SocketIO, time_time, lift, emit, raise.
  unfold mbind, mret, M_bind, M_ret. cbn.
  now destruct (SocketIO_raises w).
Qed.

Lemma connection_engine_run (w : world) :
  let r1 := answer (wait_for_callbacks_reply w) connecting in
  connection_engine w start =
  Run ([Call_on "connect" Lambda_None; Call_wait_for_callbacks] ++ emitted r1)
      (final r1) (result r1).
Proof.
  intros r1. unfold connection_engine, on, wait_for_callbacks, emit, register.
  unfold mbind at 1 2 3, M_bind. cbn. fold connecting. fold r1.
  now destruct (result r1).
Qed.

Lemma response_waiter_run (w : world) (fuel : nat) (k : unit -> M unit) :
  (response_waiter w fuel ≫= k) connecting =
  let r2 := (poll w fuel ≫= k) armed in
  Run (Call_on "joinProjectResponse" Set_project_infos :: emitted r2)
      (final r2) (result r2).
Proof.
  unfold response_waiter, on, emit, register.
  rewrite !bind_run. cbn [result emitted final].
  change (Store (project_infos connecting) _ (waits connecting)) with armed.
  cbv zeta. now destruct (result (poll w fuel armed)).
Qed.

(** [main] splits in three: the constructor raises; the wait for the
    callbacks raises; or the handler is armed and lines 43-49 run. *)
Lemma main_stages (v1 v2 project_id : string) (w : world) (fuel : nat) :
  let r1 := answer (wait_for_callbacks_reply w) connecting in
  let upto38 :=
    built v1 v2 project_id w ++
    [Call_on "connect" Lambda_None; Call_wait_for_callbacks] ++ emitted r1 in
  match SocketIO_raises w with
  | Some e =>
      main v1 v2 project_id w fuel =
        Run (built v1 v2 project_id w) start (Raised e)
  | None =>
      match result r1 with
      | Normal _ =>
          let r2 := after_arming w fuel armed in
          main v1 v2 project_id w fuel =
            Run (upto38 ++ Call_on "joinProjectResponse" Set_project_infos :: emitted r2)
                (final r2) (result r2)
      | Raised e => main v1 v2 project_id w fuel = Run upto38 connecting (Raised e)
      | Running => False
      end
  end.
Proof.
  intros r1 upto38.
  assert (Hf : final r1 = connecting).
  { apply answer_inert. intros name cb H. now apply connecting_callbacks in H. }
  pose proof (answer_frame (wait_for_callbacks_reply w) connecting) as (_ & _ & _ & Hrun).
  fold r1 in Hrun.
  unfold main, main_body.
  rewrite bind_run. cbn [assign_project_infos result emitted final project_infos callbacks waits start].
  fold start. rewrite bind_run, session_builder_run. cbn [result emitted final].
  destruct (SocketIO_raises w) as [e|] eqn:HS.
  - reflexivity.
  - rewrite bind_run, connection_engine_run. fold r1. cbn [result emitted final].
    subst upto38. destruct (result r1) as [[]|e|] eqn:Hr1; [| | congruence].
    + rewrite Hf. change (response_waiter w fuel ≫= _) with
        (response_waiter w fuel ≫= (fun _ : unit => teardown w;; v ← read_project_infos; print v)).
      rewrite response_waiter_run. cbn [result emitted final]. fold (after_arming w fuel).
      cbn [app]. rewrite <- !app_assoc. reflexivity.
    + rewrite Hf. reflexivity.
Qed.

(** ** The polling loop (lines 43-44) *)

Lemma wait_run (w : world) (seconds : Z) (s : store) :
  wait w seconds s =
  let r := answer (wait_reply w (waits s))
             (Store (project_infos s) (callbacks s) (S (waits s))) in
  Run (Call_wait seconds :: emitted r) (final r) (result r).
Proof.
  unfold wait, next_wait, emit. unfold mbind at 1 2, M_bind.
  cbn [result emitted final app].
  now destruct (result (answer _ _)).
Qed.

Lemma wait_frame (w : world) (seconds : Z) (s : store) :
  (exists fires, emitted (wait w seconds s) = Call_wait seconds :: fires /\
                 Forall (fires_of (callbacks s)) fires) /\
  callbacks (final (wait w seconds s)) = callbacks s /\
  waits (final (wait w seconds s)) = S (waits s) /\
  result (wait w seconds s) <> Running.
Proof.
  rewrite wait_run. cbn [result emitted final].
  destruct (answer_frame (wait_reply w (waits s))
              (Store (project_infos s) (callbacks s) (S (waits s))))
    as (H1 & H2 & H3 & H4).
  split; [eexists; split; [reflexivity | exact H1] |].
  repeat split; assumption.
Qed.

Lemma poll_ready (w : world) (fuel : nat) (s : store) :
  is_None (project_infos s) = false -> poll w fuel s = Run [] s (Normal tt).
Proof.
  intros H. destruct fuel; cbn [poll]; rewrite bind_run;
    cbn [read_project_infos result emitted final]; now rewrite H.
Qed.

Lemma poll_out_of_fuel (w : world) (s : store) :
  is_None (project_infos s) = true -> poll w 0 s = Run [] s Running.
Proof.
  intros H. cbn [poll]. rewrite bind_run.
  cbn [read_project_infos result emitted final]. now rewrite H.
Qed.

Lemma poll_iterate (w : world) (fuel : nat) (s : store) :
  is_None (project_infos s) = true ->
  poll w (S fuel) s = (wait w 1 ≫= fun _ => poll w fuel) s.
Proof.
  intros H. cbn [poll]. rewrite bind_run.
  cbn [read_project_infos result emitted final]. rewrite H.
  now destruct ((wait w 1 ≫= fun _ => poll w fuel) s).
Qed.

Lemma wait_times_S (w : world) (k : nat) (s : store) :
  wait_times w (S k) s = (wait w 1 ≫= fun _ => wait_times w k) s.
Proof. reflexivity. Qed.

Lemma all_None_before_S (w : world) (s : store) (k : nat) :
  is_None (project_infos s) = true ->
  result (wait w 1 s) = Normal tt ->
  all_None_before w (final (wait w 1 s)) k ->
  all_None_before w s (S k).
Proof.
  intros Hs Hw Hk [|j] Hj.
  - split; [reflexivity | exact Hs].
  - destruct (Hk j ltac:(lia)) as [Hr Hn]. unfold slot_at in *.
    rewrite wait_times_S, (bind_normal _ _ _ _ Hw). cbn [result final]. now split.
Qed.

(** The loop, fuel given, does one of three things: it leaves at the first
    test that finds the slot set; a wait raises before that; or every test
    so far found [None] and the loop is still running. *)
Lemma poll_spec (w : world) (fuel : nat) (s : store) :
  (exists k, (k <= fuel)%nat /\ all_None_before w s k /\
             is_None (slot_at w s k) = false /\
             result (wait_times w k s) = Normal tt /\
             poll w fuel s = wait_times w k s) \/
  (exists k e, (k <= fuel)%nat /\ all_None_before w s k /\
               result (wait_times w k s) = Raised e /\
               poll w fuel s = wait_times w k s) \/
  (all_None_before w s (S fuel) /\
   result (wait_times w fuel s) = Normal tt /\
   poll w fuel s =
     Run (emitted (wait_times w fuel s)) (final (wait_times w fuel s)) Running).
Proof.
  revert s. induction fuel as [|fuel IH]; intros s;
    destruct (is_None (project_infos s)) eqn:Hs.
  - right; right. split; [| split].
    + intros j Hj. assert (j = 0%nat) as -> by lia. now split.
    + reflexivity.
    + now apply poll_out_of_fuel.
  - left. exists 0%nat.
    split_and!; [lia | intros j Hj; lia | exact Hs | reflexivity | now apply poll_ready].
  - rewrite (poll_iterate _ _ _ Hs).
    destruct (wait_frame w 1 s) as (_ & _ & _ & Hrun).
    destruct (result (wait w 1 s)) as [[]|e|] eqn:Hw; [| | congruence].
    + destruct (IH (final (wait w 1 s))) as
        [(k & Hk & Hb & Hn & Hr & Hp) | [(k & e & Hk & Hb & Hr & Hp) | (Hb & Hr & Hp)]].
      * left. exists (S k). unfold slot_at in *.
        rewrite wait_times_S, !(bind_normal _ _ _ _ Hw), Hp. cbn [result final].
        split_and!; try lia; try assumption; try reflexivity. now apply all_None_before_S.
      * right; left. exists (S k), e.
        rewrite wait_times_S, !(bind_normal _ _ _ _ Hw), Hp. cbn [result final].
        split_and!; try lia; try assumption; try reflexivity. now apply all_None_before_S.
      * right; right.
        rewrite wait_times_S, !(bind_normal _ _ _ _ Hw), Hp. cbn [result final emitted].
        split_and!; try assumption; try reflexivity. now apply all_None_before_S.
    + right; left. exists 1%nat, e.
      rewrite wait_times_S, !(bind_raised _ _ _ _ Hw). cbn [result].
      split_and!; try lia; try reflexivity.
      intros j Hj. assert (j = 0%nat) as -> by lia. now split.
  - left. exists 0%nat.
    split_and!; [lia | intros j Hj; lia | exact Hs | reflexivity | now apply poll_ready].
Qed.

Lemma wait_times_frame (w : world) (k : nat) (s : store) :
  Forall (fun a => a = Call_wait 1 \/ fires_of (callbacks s) a)
         (emitted (wait_times w k s)) /\
  callbacks (final (wait_times w k s)) = callbacks s /\
  result (wait_times w k s) <> Running.
Proof.
  revert s. induction k as [|k IH]; intros s.
  - cbn. split_and!; [constructor | reflexivity | congruence].
  - rewrite wait_times_S, bind_run.
    destruct (wait_frame w 1 s) as ((fires & He & Hf) & Hc & _ & Hr).
    assert (Hw : Forall (fun a => a = Call_wait 1 \/ fires_of (callbacks s) a)
                        (emitted (wait w 1 s))).
    { rewrite He. constructor; [now left |].
      eapply Forall_impl; [exact Hf | intros a Ha; now right]. }
    destruct (result (wait w 1 s)) as [[]|e|] eqn:Hres; cbn [result emitted final];
      [| split_and!; [exact Hw | exact Hc | congruence] | congruence].
    destruct (IH (final (wait w 1 s))) as (IH1 & IH2 & IH3). rewrite Hc in IH1, IH2.
    split_and!; [| exact IH2 | exact IH3].
    apply Forall_app; now split.
Qed.

Lemma poll_frame (w : world) (fuel : nat) (s : store) :
  Forall (fun a => a = Call_wait 1 \/ fires_of (callbacks s) a)
         (emitted (poll w fuel s)) /\
  callbacks (final (poll w fuel s)) = callbacks s.
Proof.
  destruct (poll_spec w fuel s) as
    [(k & _ & _ & _ & _ & Hp) | [(k & e & _ & _ & _ & Hp) | (_ & _ & Hp)]];
    rewrite Hp; cbn [emitted final];
    [destruct (wait_times_frame w k s) as (H1 & H2 & _)
    |destruct (wait_times_frame w k s) as (H1 & H2 & _)
    |destruct (wait_times_frame w fuel s) as (H1 & H2 & _)]; now split.
Qed.

(** ** Teardown and output (lines 46-49) *)

Lemma teardown_run (w : world) (s : store) :
  teardown w s =
  Run (Read_connected (connected_now w) ::
       (if connected_now w then [Call_disconnect] else []))
      s
      (if connected_now w then
         match disconnect_raises w with
         | Some e => Raised e
         | None => Normal tt
         end
       else Normal tt).
Proof.
  unfold teardown, connected, disconnect, emit, raise.
  unfold mbind, mret, M_bind, M_ret. cbn.
  destruct (connected_now w); cbn; [now destruct (disconnect_raises w) | reflexivity].
Qed.

Lemma after_arming_run (w : world) (fuel : nat) (s : store) :
  let p := poll w fuel s in
  after_arming w fuel s =
  match result p with
  | Normal _ =>
      Run (emitted p ++ fst (closing w (project_infos (final p))))
          (final p) (snd (closing w (project_infos (final p))))
  | Raised e => Run (emitted p) (final p) (Raised e)
  | Running => Run (emitted p) (final p) Running
  end.
Proof.
  intros p. unfold after_arming. rewrite bind_run. fold p.
  destruct (result p) as [[]|e|]; try reflexivity.
  rewrite bind_run, teardown_run. unfold closing, read_project_infos, print, emit.
  cbn [result emitted final].
  destruct (connected_now w); [destruct (disconnect_raises w) |]; cbn; reflexivity.
Qed.

(** ** Counting actions in a trace *)

Lemma count_app (f : action -> bool) (l1 l2 : list action) :
  count f (l1 ++ l2) = (count f l1 + count f l2)%nat.
Proof. unfold count. now rewrite List.filter_app, length_app. Qed.

Lemma count_cons (f : action -> bool) (a : action) (l : list action) :
  count f (a :: l) = ((if f a then 1 else 0) + count f l)%nat.
Proof. unfold count. cbn. now destruct (f a). Qed.

Lemma count_none (f : action -> bool) (l : list action) :
  Forall (fun a => f a = false) l -> count f l = 0%nat.
Proof.
  induction 1 as [|a l Ha _ IH]; [reflexivity |].
  rewrite count_cons, Ha, IH. reflexivity.
Qed.

Lemma count_Forall (f : action -> bool) (P : action -> Prop) (l : list action) :
  (forall a, P a -> f a = false) -> Forall P l -> count f l = 0%nat.
Proof.
  intros Hf Hl. apply count_none. eapply Forall_impl; [exact Hl | exact Hf].
Qed.

(** ** The shape of every trace of [main] *)

Lemma count_handshake (f : action -> bool) (l : list action) :
  (forall n x, f (Fire n x) = false) -> Forall in_handshake l -> count f l = 0%nat.
Proof. intros Hf. apply count_Forall. intros a [args ->]. apply Hf. Qed.

Lemma count_in_loop (f : action -> bool) (l : list action) :
  (forall n x, f (Fire n x) = false) -> f (Call_wait 1) = false ->
  Forall in_loop l -> count f l = 0%nat.
Proof.
  intros Hf Hw. apply count_Forall.
  intros a [-> | (n & x & ->)]; [exact Hw | apply Hf].
Qed.

Lemma count_in_closing (f : action -> bool) (l : list action) :
  (forall b, f (Read_connected b) = false) -> f Call_disconnect = false ->
  (forall x, f (Call_print x) = false) ->
  Forall in_closing l -> count f l = 0%nat.
Proof.
  intros H1 H2 H3. apply count_Forall.
  intros a [[b ->] | [-> | [x ->]]]; auto.
Qed.

Lemma closing_in_closing (w : world) (v : value) : Forall in_closing (fst (closing w v)).
Proof.
  unfold closing, in_closing.
  destruct (connected_now w); [destruct (disconnect_raises w) |]; cbn [fst];
    repeat (apply List.Forall_cons;
            [first [left; eexists; reflexivity
                   | right; left; reflexivity
                   | right; right; eexists; reflexivity] |]);
    apply List.Forall_nil.
Qed.

Lemma handshake_fires (w : world) :
  Forall in_handshake (emitted (answer (wait_for_callbacks_reply w) connecting)).
Proof.
  destruct (answer_frame (wait_for_callbacks_reply w) connecting) as (Hf & _).
  eapply Forall_impl; [exact Hf |].
  intros a (name & args & cb & -> & Hcb).
  apply connecting_callbacks in Hcb as [-> _]. now exists args.
Qed.

Lemma loop_fires (w : world) (fuel : nat) (s : store) :
  Forall in_loop (emitted (poll w fuel s)).
Proof.
  destruct (poll_frame w fuel s) as (Hp & _).
  eapply Forall_impl; [exact Hp |].
  intros a [-> | (name & args & cb & -> & _)]; [now left | right; eauto].
Qed.

Lemma main_shape (v1 v2 project_id : string) (w : world) (fuel : nat) :
  exists rest,
    emitted (main v1 v2 project_id w fuel) = built v1 v2 project_id w ++ rest /\
    (rest = [] \/
     exists fires, Forall in_handshake fires /\
       (rest = [Call_on "connect" Lambda_None; Call_wait_for_callbacks] ++ fires \/
        exists loop tail, Forall in_loop loop /\ Forall in_closing tail /\
          rest = [Call_on "connect" Lambda_None; Call_wait_for_callbacks] ++ fires ++
                 Call_on "joinProjectResponse" Set_project_infos :: loop ++ tail)).
Proof.
  pose proof (main_stages v1 v2 project_id w fuel) as H. cbv zeta in H.
  pose proof (handshake_fires w) as Hf.
  destruct (SocketIO_raises w) as [e|].
  - rewrite H. exists []. split; [now rewrite app_nil_r | now left].
  - destruct (result (answer (wait_for_callbacks_reply w) connecting))
      as [[]|e|]; [| | contradiction]; rewrite H; cbn [emitted];
      eexists; (split; [rewrite <- ?app_assoc; reflexivity |]); right;
      eexists; (split; [exact Hf |]); [right | now left].
    rewrite after_arming_run. pose proof (loop_fires w fuel armed) as Hp.
    destruct (result (poll w fuel armed)) as [[]|e|]; cbn [emitted].
    + do 2 eexists. split_and!; [exact Hp | apply closing_in_closing | reflexivity].
    + exists (emitted (poll w fuel armed)), [].
      split_and!; [exact Hp | constructor | now rewrite app_nil_r].
    + exists (emitted (poll w fuel armed)), [].
      split_and!; [exact Hp | constructor | now rewrite app_nil_r].
Qed.

(** C3: the cookie header is exactly [GCLB=<v1>; overleaf_session2=<v2>];
    the query parameters are exactly [t], the clock reading truncated to
    whole seconds, and [projectId]; the clock is read once, as the first
    action, right before the one construction of the connection. *)
Theorem session_builder_output (v1 v2 project_id : string) (w : world) (fuel : nat) :
  cookie_header v1 v2 = Ok ("GCLB=" +:+ v1 +:+ "; overleaf_session2=" +:+ v2) /\
  (exists rest,
      emitted (main v1 v2 project_id w fuel) =
        Call_time ::
        Call_SocketIO BASE_URL
          (<["projectId" := VStr project_id]>
             (<["t" := VInt (int_of_float (clock w))]> ∅))
          (<["Cookie" := VStr ("GCLB=" +:+ v1 +:+ "; overleaf_session2=" +:+ v2)]> ∅)
        :: rest /\
      count is_time rest = 0%nat /\ count is_SocketIO rest = 0%nat) /\
  (forall key : string,
      params project_id w !! key =
        if decide (key = "projectId") then Some (VStr project_id)
        else if decide (key = "t") then Some (VInt (int_of_float (clock w)))
        else None) /\
  ((0 <= clock w)%Q ->
   (inject_Z (int_of_float (clock w)) <= clock w)%Q /\
   (clock w < inject_Z (int_of_float (clock w)) + 1)%Q).
Proof.
  split_and!.
  - apply cookie_header_eq.
  - destruct (main_shape v1 v2 project_id w fuel) as (rest & Htr & Hrest).
    exists rest. split; [exact Htr |].
    destruct Hrest as [-> | (fires & Hf & [-> | (loop & tail & Hloop & Htail & ->)])].
    + now split.
    + split; cbn [app]; rewrite !count_cons; cbn [is_time is_SocketIO is_on];
        now rewrite count_handshake.
    + split; cbn [app]; rewrite !count_cons, !count_app, count_cons, count_app;
        cbn [is_time is_SocketIO is_on]; now rewrite count_handshake, count_in_loop, count_in_closing.
  - intros key. unfold params.
    rewrite lookup_insert. destruct (decide ("projectId" = key)) as [<-|Hk].
    + now rewrite decide_True.
    + rewrite decide_False by congruence.
      rewrite lookup_insert. destruct (decide ("t" = key)) as [<-|Hk'].
      * now rewrite decide_True.
      * rewrite decide_False by congruence. apply lookup_empty.
  - apply int_of_float_floor.
Qed.

Lemma count_after_arming (f : action -> bool) (w : world) (fuel : nat) (s : store) :
  (forall n x, f (Fire n x) = false) -> f (Call_wait 1) = false ->
  (forall b, f (Read_connected b) = false) -> f Call_disconnect = false ->
  (forall x, f (Call_print x) = false) ->
  count f (emitted (after_arming w fuel s)) = 0%nat.
Proof.
  intros H1 H2 H3 H4 H5. rewrite after_arming_run.
  pose proof (loop_fires w fuel s) as Hp.
  destruct (result (poll w fuel s)) as [[]|e|]; cbn [emitted];
    rewrite ?count_app, (count_in_loop f _ H1 H2 Hp); try reflexivity.
  now rewrite (count_in_closing f _ H3 H4 H5 (closing_in_closing w _)).
Qed.

(** ** Handshake errors (lines 31-39) *)

(** C8: an exception raised by the constructor, or by the wait for the
    callbacks that follows it, leaves [main] unchanged: the connection was
    constructed once (no retry), nothing was printed, the result slot is
    still [None], the response handler was never registered, and the
    process ends with a non-zero status. *)
Theorem handshake_error_propagates
    (v1 v2 project_id : string) (w : world) (fuel : nat) (e : exn) :
  SocketIO_raises w = Some e \/
  (SocketIO_raises w = None /\ result (connection_engine w start) = Raised e) ->
  let r := main v1 v2 project_id w fuel in
  result r = Raised e /\
  exit_status (result r) = Some 1 /\
  count is_SocketIO (emitted r) = 1%nat /\
  count is_print (emitted r) = 0%nat /\
  count is_wait (emitted r) = 0%nat /\
  count (is_on "joinProjectResponse") (emitted r) = 0%nat /\
  project_infos (final r) = VNone.
Proof.
  intros H r. subst r.
  pose proof (main_stages v1 v2 project_id w fuel) as Hm. cbv zeta in Hm.
  pose proof (handshake_fires w) as Hf.
  rewrite connection_engine_run in H. cbn [result] in H.
  destruct (SocketIO_raises w) as [e'|].
  - destruct H as [[= ->] | [[=] _]]. rewrite Hm. now split_and!.
  - destruct H as [[=] | [_ H]]. rewrite H in Hm. rewrite Hm. cbn [result emitted final].
    split_and!; try reflexivity;
      cbn [built app]; rewrite !count_cons; cbn [is_SocketIO is_print is_wait is_on];
      now rewrite count_handshake.
Qed.

Lemma handshake_error_propagates_witness :
  let r := main "abc" "xyz" "60f" refused 3 in
  result r = Raised (LibraryError "ConnectionError" "handshake failed") /\
  exit_status (result r) = Some 1 /\
  count is_SocketIO (emitted r) = 1%nat /\
  count is_print (emitted r) = 0%nat /\
  count is_wait (emitted r) = 0%nat /\
  count (is_on "joinProjectResponse") (emitted r) = 0%nat /\
  project_infos (final r) = VNone.
Proof.
  apply (handshake_error_propagates "abc" "xyz" "60f" refused 3).
  left. reflexivity.
Defined.

(** ** Registration of the response handler (lines 38-41) *)

Lemma count_occurs (f : action -> bool) (l1 l2 : list action) (x : action) :
  f x = true -> (0 < count f (l1 ++ x :: l2))%nat.
Proof. intros Hx. rewrite count_app, count_cons, Hx. lia. Qed.

(** An action that is the only one of its kind splits a trace in one way. *)
Lemma split_unique (f : action -> bool) (l1 l2 l1' l2' : list action) (x y : action) :
  l1 ++ x :: l2 = l1' ++ y :: l2' ->
  f x = true -> f y = true ->
  count f l1 = 0%nat -> count f l2 = 0%nat ->
  l1 = l1' /\ x = y /\ l2 = l2'.
Proof.
  intros Heq Hx Hy H1 H2. revert l1' Heq.
  induction l1 as [|a l1 IH]; intros [|a' l1'] Heq; cbn in Heq.
  - now injection Heq as -> ->.
  - injection Heq as -> ->.
    pose proof (count_occurs f l1' l2' y Hy). lia.
  - injection Heq as -> _. rewrite count_cons, Hy in H1. lia.
  - injection Heq as -> Heq. rewrite count_cons in H1.
    destruct (IH ltac:(lia) l1' Heq) as (-> & -> & ->). now split_and!.
Qed.

(** C4, as stated, fails: when [wait_for_callbacks] returns without
    having delivered [connect], the client registers the response handler
    all the same, and [connect] is observed only later, in the polling
    loop. *)
Lemma handler_armed_before_connect :
  let r := main "abc" "xyz" "60f" late_connect 1 in
  result r = Normal tt /\
  emitted r =
    built "abc" "xyz" "60f" late_connect ++
    [Call_on "connect" Lambda_None;
     Call_wait_for_callbacks;
     Call_on "joinProjectResponse" Set_project_infos;
     Call_wait 1;
     Fire "connect" [];
     Fire "joinProjectResponse"
          [VDict {[ "project" := VDict {[ "rootDoc_id" := VStr "d1" ]} ]}];
     Read_connected true;
     Call_disconnect;
     Call_print (VDict {[ "rootDoc_id" := VStr "d1" ]})].
Proof. vm_compute. split; reflexivity. Qed.

(** C4, amended: in every execution the response handler is registered
    at most once, and only after the constructor returned, the [connect]
    callback was registered and the call of [wait_for_callbacks] returned;
    what was observed of [connect] before the registration is what the
    library delivered during that call, which the client does not check. *)
Theorem handler_armed_after_wait_for_callbacks
    (v1 v2 project_id : string) (w : world) (fuel : nat)
    (pre post : list action) (cb : callback) :
  emitted (main v1 v2 project_id w fuel) =
    pre ++ Call_on "joinProjectResponse" cb :: post ->
  cb = Set_project_infos /\
  SocketIO_raises w = None /\
  result (connection_engine w start) = Normal tt /\
  pre = built v1 v2 project_id w ++ emitted (connection_engine w start) /\
  (exists fires,
      emitted (connection_engine w start) =
        Call_on "connect" Lambda_None :: Call_wait_for_callbacks :: fires /\
      fires = emitted (answer (wait_for_callbacks_reply w) connecting) /\
      Forall in_handshake fires) /\
  count (is_on "joinProjectResponse") post = 0%nat.
Proof.
  intros Htr.
  pose proof (main_stages v1 v2 project_id w fuel) as Hm. cbv zeta in Hm.
  pose proof (handshake_fires w) as Hf.
  rewrite connection_engine_run. cbn [result emitted].
  assert (Hin : count (is_on "joinProjectResponse") (emitted (main v1 v2 project_id w fuel))
                <> 0%nat).
  { rewrite Htr. pose proof (count_occurs (is_on "joinProjectResponse") pre post
      (Call_on "joinProjectResponse" cb) eq_refl). lia. }
  destruct (SocketIO_raises w) as [e|].
  - rewrite Hm in Hin. now cbn in Hin.
  - destruct (result (answer (wait_for_callbacks_reply w) connecting))
      as [[]|e|]; [| | contradiction].
    + rewrite Hm in Htr. cbn [emitted] in Htr.
      assert (Hpre : count (is_on "joinProjectResponse")
                       (built v1 v2 project_id w ++
                        [Call_on "connect" Lambda_None; Call_wait_for_callbacks] ++
                        emitted (answer (wait_for_callbacks_reply w) connecting)) = 0%nat).
      { cbn [built app]. rewrite !count_cons. cbn [is_on]. now rewrite count_handshake. }
      assert (Hpost : count (is_on "joinProjectResponse")
                        (emitted (after_arming w fuel armed)) = 0%nat)
        by now apply count_after_arming.
      destruct (split_unique _ _ _ _ _ _ _ Htr eq_refl eq_refl Hpre Hpost)
        as (<- & [= <-] & <-).
      split_and!; try reflexivity; [| exact Hpost].
      eexists. split_and!; [reflexivity | reflexivity | exact Hf].
    + rewrite Hm in Hin. exfalso. apply Hin. cbn [emitted built app].
      rewrite !count_cons. cbn [is_on]. now rewrite count_handshake.
Qed.

Lemma handler_armed_after_wait_for_callbacks_witness :
  SocketIO_raises late_connect = None /\
  result (connection_engine late_connect start) = Normal tt /\
  built "abc" "xyz" "60f" late_connect ++
    [Call_on "connect" Lambda_None; Call_wait_for_callbacks] =
  built "abc" "xyz" "60f" late_connect ++ emitted (connection_engine late_connect start).
Proof.
  assert (H : emitted (main "abc" "xyz" "60f" late_connect 1) =
              (built "abc" "xyz" "60f" late_connect ++
               [Call_on "connect" Lambda_None; Call_wait_for_callbacks]) ++
              Call_on "joinProjectResponse" Set_project_infos ::
              [Call_wait 1;
               Fire "connect" [];
               Fire "joinProjectResponse"
                    [VDict {[ "project" := VDict {[ "rootDoc_id" := VStr "d1" ]} ]}];
               Read_connected true;
               Call_disconnect;
               Call_print (VDict {[ "rootDoc_id" := VStr "d1" ]})])
    by (vm_compute; reflexivity).
  destruct (handler_armed_after_wait_for_callbacks _ _ _ _ _ _ _ _ H)
    as (_ & H1 & H2 & H3 & _).
  split_and!; assumption.
Defined.

(** ** The end of a successful run (lines 46-49) *)

(** C5, as stated, fails: in the end-to-end scenario the connection is
    closed before the mapping is printed, not after; and a successful run
    on a connection that is no longer open closes nothing. *)
Lemma disconnect_precedes_print :
  (let r := main "abc" "xyz" "60f" end_to_end 1 in
   result r = Normal tt /\
   emitted r =
     built "abc" "xyz" "60f" end_to_end ++
     [Call_on "connect" Lambda_None;
      Call_wait_for_callbacks;
      Fire "connect" [];
      Call_on "joinProjectResponse" Set_project_infos;
      Call_wait 1;
      Fire "joinProjectResponse"
           [VDict {[ "project" := VDict {[ "rootDoc_id" := VStr "d1" ]} ]}];
      Read_connected true;
      Call_disconnect;
      Call_print (VDict {[ "rootDoc_id" := VStr "d1" ]})]) /\
  (let r := main "abc" "xyz" "60f" end_to_end_closed 1 in
   result r = Normal tt /\
   count is_disconnect (emitted r) = 0%nat /\
   count is_print (emitted r) = 1%nat).
Proof. vm_compute. repeat split. Qed.

(** C5, amended: in every successful run the last actions are the read of
    [connected], then one disconnect if and only if it read true, then
    the print of the extracted value, which is not [None]; nothing
    before them disconnects or prints.  So the connection is closed at
    most once, and before the output, never after it. *)
Theorem successful_run_closes_then_prints
    (v1 v2 project_id : string) (w : world) (fuel : nat) :
  result (main v1 v2 project_id w fuel) = Normal tt ->
  exists pre,
    emitted (main v1 v2 project_id w fuel) =
      pre ++ Read_connected (connected_now w) ::
             (if connected_now w then [Call_disconnect] else []) ++
             [Call_print (project_infos (final (main v1 v2 project_id w fuel)))] /\
    count is_disconnect pre = 0%nat /\
    count is_print pre = 0%nat /\
    is_None (project_infos (final (main v1 v2 project_id w fuel))) = false /\
    count is_disconnect (emitted (main v1 v2 project_id w fuel)) =
      (if connected_now w then 1 else 0)%nat.
Proof.
  intros Hres.
  pose proof (main_stages v1 v2 project_id w fuel) as Hm. cbv zeta in Hm.
  pose proof (handshake_fires w) as Hf.
  destruct (SocketIO_raises w) as [e|]; [now rewrite Hm in Hres |].
  destruct (result (answer (wait_for_callbacks_reply w) connecting))
    as [[]|e|]; [| now rewrite Hm in Hres | contradiction].
  rewrite Hm in Hres |- *. cbn [result emitted final] in Hres |- *.
  rewrite after_arming_run in Hres |- *.
  pose proof (loop_fires w fuel armed) as Hp.
  destruct (poll_spec w fuel armed) as
    [(k & _ & _ & Hn & _ & Hk) | [(k & e & _ & _ & Hr & Hk) | (_ & _ & Hk)]].
  - destruct (result (poll w fuel armed)) as [[]|e|] eqn:Hpoll; try discriminate.
    cbn [result emitted final] in Hres |- *.
    assert (Hslot : is_None (project_infos (final (poll w fuel armed))) = false)
      by (rewrite Hk; exact Hn).
    set (v := project_infos (final (poll w fuel armed))) in *.
    set (pre := (built v1 v2 project_id w ++
                 [Call_on "connect" Lambda_None; Call_wait_for_callbacks] ++
                 emitted (answer (wait_for_callbacks_reply w) connecting)) ++
                Call_on "joinProjectResponse" Set_project_infos ::
                emitted (poll w fuel armed)).
    assert (Hpre : forall f, f Call_time = false ->
              (forall a b c, f (Call_SocketIO a b c) = false) ->
              (forall a b, f (Call_on a b) = false) ->
              f Call_wait_for_callbacks = false ->
              (forall n x, f (Fire n x) = false) -> f (Call_wait 1) = false ->
              count f pre = 0%nat).
    { intros f H1 H2 H3 H4 H5 H6. subst pre. cbn [built app].
      rewrite !count_cons, !count_app, !count_cons, H1, H2, !H3, H4.
      now rewrite count_handshake, count_in_loop. }
    exists pre. unfold closing in Hres |- *.
    destruct (connected_now w); [destruct (disconnect_raises w); [discriminate |] |];
      cbn [fst snd] in *;
      match goal with
      | |- ?tr = ?rhs /\ _ =>
          assert (Heq : tr = rhs) by (subst pre; cbn [app]; now rewrite <- !app_assoc)
      end;
      (split_and!; [exact Heq | now apply Hpre | now apply Hpre | exact Hslot |]);
      rewrite Heq, count_app, Hpre by reflexivity; reflexivity.
  - rewrite Hk, Hr in Hres. discriminate.
  - rewrite Hk in Hres. discriminate.
Qed.

Lemma successful_run_closes_then_prints_witness :
  exists pre,
    emitted (main "abc" "xyz" "60f" end_to_end 1) =
      pre ++ Read_connected (connected_now end_to_end) ::
             (if connected_now end_to_end then [Call_disconnect] else []) ++
             [Call_print (project_infos (final (main "abc" "xyz" "60f" end_to_end 1)))] /\
    count is_disconnect pre = 0%nat /\
    count is_print pre = 0%nat /\
    is_None (project_infos (final (main "abc" "xyz" "60f" end_to_end 1))) = false /\
    count is_disconnect (emitted (main "abc" "xyz" "60f" end_to_end 1)) =
      (if connected_now end_to_end then 1 else 0)%nat.
Proof.
  apply (successful_run_closes_then_prints "abc" "xyz" "60f" end_to_end 1).
  vm_compute. reflexivity.
Defined.

Lemma count_early (f : action -> bool) (l : list action) :
  (forall a, early a -> f a = false) -> Forall early l -> count f l = 0%nat.
Proof. apply count_Forall. Qed.

(** Either [main] never reaches line 46, or the loop left at its test
    number [k], the first to find the slot set, and lines 46-49 ran on
    that value. *)
Lemma main_outcome (v1 v2 project_id : string) (w : world) (fuel : nat) :
  let r := main v1 v2 project_id w fuel in
  (Forall early (emitted r) /\ result r <> Normal tt) \/
  (exists pre k,
      Forall early pre /\ (k <= fuel)%nat /\
      all_None_before w armed k /\
      result (wait_times w k armed) = Normal tt /\
      is_None (slot_at w armed k) = false /\
      emitted r = pre ++ fst (closing w (slot_at w armed k)) /\
      result r = snd (closing w (slot_at w armed k)) /\
      project_infos (final r) = slot_at w armed k).
Proof.
  intros r. subst r.
  pose proof (main_stages v1 v2 project_id w fuel) as Hm. cbv zeta in Hm.
  assert (Hf : Forall early (emitted (answer (wait_for_callbacks_reply w) connecting))).
  { eapply Forall_impl; [apply handshake_fires | now intros a [args ->]]. }
  assert (Hb : Forall early (built v1 v2 project_id w)) by (repeat constructor).
  destruct (SocketIO_raises w) as [e|].
  { left. rewrite Hm. now split. }
  assert (H38 : Forall early
                  (built v1 v2 project_id w ++
                   [Call_on "connect" Lambda_None; Call_wait_for_callbacks] ++
                   emitted (answer (wait_for_callbacks_reply w) connecting))).
  { apply Forall_app. split; [exact Hb |]. apply Forall_app. split; [| exact Hf].
    repeat constructor. }
  destruct (result (answer (wait_for_callbacks_reply w) connecting))
    as [[]|e|]; [| left; rewrite Hm; now split | contradiction].
  rewrite Hm. cbn [result emitted final]. rewrite after_arming_run.
  assert (Hp : Forall early (emitted (poll w fuel armed))).
  { eapply Forall_impl; [apply loop_fires |].
    now intros a [-> | (n & x & ->)]. }
  assert (Hpre : Forall early
                   ((built v1 v2 project_id w ++
                     [Call_on "connect" Lambda_None; Call_wait_for_callbacks] ++
                     emitted (answer (wait_for_callbacks_reply w) connecting)) ++
                    Call_on "joinProjectResponse" Set_project_infos ::
                    emitted (poll w fuel armed))).
  { apply Forall_app. split; [exact H38 |]. now constructor. }
  destruct (poll_spec w fuel armed) as
    [(k & Hk & Hall & Hn & Hr & Hpoll) | [(k & e & _ & _ & Hr & Hpoll) | (_ & _ & Hpoll)]].
  - right. rewrite Hpoll in Hpre |- *. rewrite Hr. cbn [result emitted final].
    eexists _, k.
    split_and!; [exact Hpre | exact Hk | exact Hall | exact Hr | exact Hn | | |];
      unfold slot_at; [| reflexivity | reflexivity].
    now rewrite <- !app_assoc.
  - left. rewrite Hpoll in Hpre |- *. rewrite Hr. cbn [result emitted]. now split.
  - left. rewrite Hpoll in Hpre |- *. cbn [result emitted] in *. now split.
Qed.

(** C6: [main] disconnects at most once; when it does, the loop has left
    at a test that found the slot set (no wait follows), and the read of
    [connected] just before returned true.  On a connection that is not
    open the teardown only reads [connected]: it disconnects nothing,
    changes nothing and does not raise. *)
Theorem disconnect_at_most_once_after_result
    (v1 v2 project_id : string) (w : world) (fuel : nat) :
  let r := main v1 v2 project_id w fuel in
  (count is_disconnect (emitted r) <= 1)%nat /\
  (forall pre post,
      emitted r = pre ++ Call_disconnect :: post ->
      connected_now w = true /\
      (exists pre', pre = pre' ++ [Read_connected true] /\ Forall early pre') /\
      count is_wait post = 0%nat /\
      count is_disconnect post = 0%nat /\
      exists k, (k <= fuel)%nat /\ all_None_before w armed k /\
                result (wait_times w k armed) = Normal tt /\
                is_None (slot_at w armed k) = false) /\
  (connected_now w = false -> count is_disconnect (emitted r) = 0%nat) /\
  (forall s, connected_now w = false ->
             teardown w s = Run [Read_connected false] s (Normal tt)).
Proof.
  cbv zeta.
  pose proof (main_outcome v1 v2 project_id w fuel) as Ho. cbv zeta in Ho.
  set (r := main v1 v2 project_id w fuel) in *.
  assert (He : forall l, Forall early l -> count is_disconnect l = 0%nat).
  { intros l. apply count_early. now intros []. }
  assert (Hteardown : forall s, connected_now w = false ->
                                teardown w s = Run [Read_connected false] s (Normal tt)).
  { intros s Hc. rewrite teardown_run, Hc. reflexivity. }
  destruct Ho as [[Hearly Hres] | (pre0 & k & Hpre0 & Hk & Hall & Hr & Hn & Htr & _)].
  - split_and!; [rewrite He by assumption; lia | | now intros; apply He | exact Hteardown].
    intros pre post Heq. rewrite Heq in Hearly. apply He in Hearly.
    pose proof (count_occurs is_disconnect pre post Call_disconnect eq_refl). lia.
  - unfold closing in Htr.
    destruct (connected_now w) eqn:Hc.
    + assert (Hsplit : exists post0,
                 emitted r = (pre0 ++ [Read_connected true]) ++ Call_disconnect :: post0 /\
                 count is_wait post0 = 0%nat /\ count is_disconnect post0 = 0%nat).
      { destruct (disconnect_raises w); cbn [fst] in Htr; eexists;
          (split_and!; [rewrite Htr, <- app_assoc; reflexivity | |]); reflexivity. }
      destruct Hsplit as (post0 & Heq & Hw0 & Hd0).
      assert (Hpre : count is_disconnect (pre0 ++ [Read_connected true]) = 0%nat).
      { rewrite count_app, He by assumption. reflexivity. }
      split_and!; [| | discriminate | exact Hteardown].
      * rewrite Heq, count_app, count_cons, Hpre, Hd0. cbn. lia.
      * intros pre post Heq'. rewrite Heq in Heq'.
        destruct (split_unique is_disconnect _ _ _ _ _ _ Heq' eq_refl eq_refl Hpre Hd0)
          as (<- & _ & <-).
        split_and!; [reflexivity | now exists pre0 | exact Hw0 | exact Hd0 | now exists k].
    + cbn [fst] in Htr.
      assert (H0 : count is_disconnect (emitted r) = 0%nat).
      { rewrite Htr, count_app, He by assumption. reflexivity. }
      split_and!; [lia | | now intros | exact Hteardown].
      intros pre post Heq. rewrite Heq in H0.
      pose proof (count_occurs is_disconnect pre post Call_disconnect eq_refl). lia.
Qed.

Lemma disconnect_at_most_once_after_result_witness :
  (count is_disconnect (emitted (main "abc" "xyz" "60f" end_to_end 1)) <= 1)%nat /\
  connected_now end_to_end = true /\
  exists k, (k <= 1)%nat /\ is_None (slot_at end_to_end armed k) = false.
Proof.
  destruct (disconnect_at_most_once_after_result "abc" "xyz" "60f" end_to_end 1)
    as (H1 & H2 & _).
  destruct (H2 (built "abc" "xyz" "60f" end_to_end ++
                [Call_on "connect" Lambda_None;
                 Call_wait_for_callbacks;
                 Fire "connect" [];
                 Call_on "joinProjectResponse" Set_project_infos;
                 Call_wait 1;
                 Fire "joinProjectResponse"
                      [VDict {[ "project" := VDict {[ "rootDoc_id" := VStr "d1" ]} ]}];
                 Read_connected true])
               [Call_print (VDict {[ "rootDoc_id" := VStr "d1" ]})])
    as (Hc & _ & _ & _ & k & Hk & _ & _ & Hn).
  { vm_compute. reflexivity. }
  split_and!; [exact H1 | exact Hc | now exists k].
Defined.

(** ** The result slot while the loop runs *)

Lemma armed_lookup (s : store) (name : string) :
  callbacks s = callbacks armed ->
  callbacks s !! name =
    if String.eqb name "joinProjectResponse" then Some Set_project_infos
    else if String.eqb name "connect" then Some Lambda_None
    else None.
Proof.
  intros ->. cbn [callbacks armed].
  destruct (String.eqb_spec name "joinProjectResponse") as [->|H1].
  - apply lookup_insert_eq.
  - rewrite lookup_insert_ne by congruence.
    destruct (String.eqb_spec name "connect") as [->|H2].
    + apply lookup_insert_eq.
    + rewrite lookup_insert_ne by congruence. apply lookup_empty.
Qed.

Lemma dispatch_cons (name : string) (args : list value)
    (events : list (string * list value)) (s : store) :
  dispatch ((name, args) :: events) s =
  match callbacks s !! name with
  | Some cb =>
      let c := call cb args s in
      match result c with
      | Normal _ =>
          let d := dispatch events (final c) in
          Run (Fire name args :: emitted c ++ emitted d) (final d) (result d)
      | Raised e => Run (Fire name args :: emitted c) (final c) (Raised e)
      | Running => Run (Fire name args :: emitted c) (final c) Running
      end
  | None => dispatch events s
  end.
Proof.
  cbn [dispatch]. rewrite bind_run. cbn [read_callbacks result emitted final].
  destruct (callbacks s !! name) as [cb|]; [| now destruct (dispatch events s)].
  rewrite bind_run. cbn [emit result emitted final]. rewrite bind_run.
  now destruct (result (call cb args s)).
Qed.

Lemma set_project_infos_run (p : value) (s : store) :
  set_project_infos p s =
  match extraction p with
  | Ok v => Run [] (Store v (callbacks s) (waits s)) (Normal tt)
  | Err e => Run [] s (Raised e)
  end.
Proof. unfold set_project_infos. rewrite bind_run. now destruct (extraction p). Qed.

Lemma answer_run (r : reply) (s : store) :
  answer r s =
  let d := dispatch (incoming r) s in
  match result d, failure r with
  | Normal _, Some e => Run (emitted d) (final d) (Raised e)
  | _, _ => d
  end.
Proof.
  unfold answer. rewrite bind_run. cbv zeta.
  destruct (dispatch (incoming r) s) as [tr s' [[]|e|]]; cbn [result emitted final];
    try reflexivity.
  destruct (failure r); cbn; now rewrite app_nil_r.
Qed.

Lemma harmless_slot_after (ev : string * list value) :
  harmless ev = true -> slot_after VNone ev = VNone.
Proof.
  unfold harmless, slot_after. destruct (String.eqb (fst ev) "joinProjectResponse");
    [| reflexivity].
  destruct (snd ev) as [|p [|]]; try reflexivity.
  destruct (extraction p) as [[]|]; congruence.
Qed.

(** Events that leave an unset slot unset, delivered to the armed client. *)
Lemma dispatch_keeps_None (events : list (string * list value)) (s : store) :
  callbacks s = callbacks armed ->
  project_infos s = VNone ->
  Forall (fun ev => slot_after VNone ev = VNone) events ->
  project_infos (final (dispatch events s)) = VNone.
Proof.
  intros Hc Hs Hev. revert s Hc Hs.
  induction Hev as [|[name args] events Hhead _ IH]; intros s Hc Hs; [exact Hs |].
  rewrite dispatch_cons, (armed_lookup _ _ Hc). unfold slot_after in Hhead. cbn [fst snd] in Hhead.
  destruct (String.eqb name "joinProjectResponse").
  - destruct args as [|p [|q args]]; cbn [call raise result final]; try exact Hs.
    rewrite set_project_infos_run.
    destruct (extraction p) as [v|e]; cbn [result final]; [| exact Hs].
    apply IH; [exact Hc | exact Hhead].
  - destruct (String.eqb name "connect"); [| now apply IH].
    destruct args; cbn [call raise result final]; [now apply IH | exact Hs].
Qed.

Lemma answer_keeps_None (r : reply) (s : store) :
  callbacks s = callbacks armed ->
  project_infos s = VNone ->
  Forall (fun ev => slot_after VNone ev = VNone) (incoming r) ->
  project_infos (final (answer r s)) = VNone.
Proof.
  intros Hc Hs Hev. rewrite answer_run. cbv zeta.
  pose proof (dispatch_keeps_None _ _ Hc Hs Hev) as H.
  destruct (result (dispatch (incoming r) s)) as [[]|e|]; [destruct (failure r) | |];
    exact H.
Qed.

Lemma slot_stays_None (w : world) :
  (forall k, Forall (fun ev => slot_after VNone ev = VNone) (incoming (wait_reply w k))) ->
  forall k s, callbacks s = callbacks armed -> project_infos s = VNone ->
              slot_at w s k = VNone.
Proof.
  intros Hw. unfold slot_at. induction k as [|k IH]; intros s Hc Hs; [exact Hs |].
  rewrite wait_times_S, bind_run.
  destruct (wait_frame w 1 s) as (_ & Hc' & _).
  assert (Hs' : project_infos (final (wait w 1 s)) = VNone).
  { rewrite wait_run. cbn [final]. now apply answer_keeps_None. }
  destruct (result (wait w 1 s)) as [[]|e|]; cbn [final]; [| exact Hs' | exact Hs'].
  apply IH; [congruence | exact Hs'].
Qed.

Lemma dispatch_harmless (events : list (string * list value)) (s : store) :
  callbacks s = callbacks armed ->
  project_infos s = VNone ->
  forallb harmless events = true ->
  result (dispatch events s) = Normal tt /\
  project_infos (final (dispatch events s)) = VNone.
Proof.
  revert s. induction events as [|[name args] events IH]; intros s Hc Hs Hev;
    [now split |].
  cbn [forallb] in Hev. apply andb_true_iff in Hev as [Hhead Hev].
  rewrite dispatch_cons, (armed_lookup _ _ Hc).
  unfold harmless in Hhead. cbn [fst snd] in Hhead.
  destruct (String.eqb name "joinProjectResponse").
  - destruct args as [|p [|q args]]; try discriminate.
    cbn [call]. rewrite set_project_infos_run.
    destruct (extraction p) as [[]|e]; try discriminate. cbn [result final emitted].
    now apply IH.
  - destruct (String.eqb name "connect"); [| now apply IH].
    destruct args; [| discriminate]. cbn [call result final emitted]. now apply IH.
Qed.

Lemma wait_uneventful (w : world) (s : store) :
  callbacks s = callbacks armed ->
  project_infos s = VNone ->
  uneventful (wait_reply w (waits s)) = true ->
  result (wait w 1 s) = Normal tt /\ project_infos (final (wait w 1 s)) = VNone.
Proof.
  intros Hc Hs Hu. apply andb_true_iff in Hu as [Hev Hfail].
  rewrite wait_run, answer_run. cbv zeta.
  destruct (dispatch_harmless (incoming (wait_reply w (waits s)))
              (Store (project_infos s) (callbacks s) (S (waits s))) Hc Hs Hev) as [Hr Hn].
  rewrite Hr. destruct (failure (wait_reply w (waits s))); [discriminate |].
  cbn [result final]. now split.
Qed.

Lemma wait_times_uneventful (w : world) :
  (forall k, uneventful (wait_reply w k) = true) ->
  forall k s, callbacks s = callbacks armed -> project_infos s = VNone ->
              result (wait_times w k s) = Normal tt /\ slot_at w s k = VNone.
Proof.
  intros Hw. unfold slot_at. induction k as [|k IH]; intros s Hc Hs; [now split |].
  destruct (wait_uneventful w s Hc Hs (Hw _)) as [Hr Hn].
  destruct (wait_frame w 1 s) as (_ & Hc' & _).
  rewrite wait_times_S, (bind_normal _ _ _ _ Hr). cbn [result final].
  apply IH; [congruence | exact Hn].
Qed.

(** Each run of the loop body is one call of [wait]. *)
Lemma wait_times_count (w : world) (k : nat) (s : store) :
  count is_wait (emitted (wait_times w k s)) =
    (waits (final (wait_times w k s)) - waits s)%nat /\
  (waits s <= waits (final (wait_times w k s)))%nat /\
  (result (wait_times w k s) = Normal tt ->
   count is_wait (emitted (wait_times w k s)) = k).
Proof.
  revert s. induction k as [|k IH]; intros s.
  - cbn. split_and!; [lia | lia | reflexivity].
  - rewrite wait_times_S, bind_run.
    destruct (wait_frame w 1 s) as ((fires & He & Hf) & _ & Hw & Hrun).
    assert (Hc : count is_wait (emitted (wait w 1 s)) = 1%nat).
    { rewrite He, count_cons. cbn [is_wait].
      assert (H0 : count is_wait fires = 0%nat).
      { eapply count_Forall; [| exact Hf]. now intros a (n & x & cb & -> & _). }
      now rewrite H0. }
    destruct (result (wait w 1 s)) as [[]|e|]; cbn [result emitted final];
      [| rewrite Hc, Hw; split_and!; [lia | lia | discriminate] | congruence].
    destruct (IH (final (wait w 1 s))) as (IH1 & IH2 & IH3).
    rewrite count_app, Hc, IH1. rewrite Hw in *.
    split_and!; [lia | lia |]. intros Hr. rewrite <- IH1, IH3 by assumption. reflexivity.
Qed.

Lemma poll_never_leaves (w : world) (fuel : nat) (s : store) :
  callbacks s = callbacks armed -> project_infos s = VNone ->
  (forall k, Forall (fun ev => slot_after VNone ev = VNone) (incoming (wait_reply w k))) ->
  result (poll w fuel s) <> Normal tt.
Proof.
  intros Hc Hs Hw.
  destruct (poll_spec w fuel s) as
    [(k & _ & _ & Hn & _ & _) | [(k & e & _ & _ & Hr & Hp) | (_ & _ & Hp)]].
  - now rewrite (slot_stays_None w Hw k s Hc Hs) in Hn.
  - rewrite Hp, Hr. discriminate.
  - rewrite Hp. discriminate.
Qed.

Lemma poll_blocks (w : world) (fuel : nat) (s : store) :
  callbacks s = callbacks armed -> project_infos s = VNone ->
  (forall k, uneventful (wait_reply w k) = true) ->
  poll w fuel s =
    Run (emitted (wait_times w fuel s)) (final (wait_times w fuel s)) Running /\
  count is_wait (emitted (poll w fuel s)) = fuel.
Proof.
  intros Hc Hs Hw.
  pose proof (wait_times_uneventful w Hw) as Hu.
  destruct (poll_spec w fuel s) as
    [(k & _ & _ & Hn & _ & _) | [(k & e & _ & _ & Hr & _) | (_ & Hr & Hp)]].
  - destruct (Hu k s Hc Hs) as [_ Hk]. now rewrite Hk in Hn.
  - destruct (Hu k s Hc Hs) as [Hk _]. congruence.
  - split; [exact Hp |]. rewrite Hp. cbn [emitted].
    now apply wait_times_count.
Qed.

Lemma never_arrives_keeps_None (r : reply) :
  arrives r = false ->
  Forall (fun ev => slot_after VNone ev = VNone) (incoming r).
Proof.
  unfold arrives. induction (incoming r) as [|ev evs IH]; cbn [existsb]; intros H;
    [constructor |].
  apply orb_false_iff in H as [Hev Hevs].
  constructor; [| now apply IH]. unfold slot_after. now rewrite Hev.
Qed.

Lemma main_blocks (v1 v2 project_id : string) (w : world) (fuel : nat) :
  SocketIO_raises w = None ->
  result (connection_engine w start) = Normal tt ->
  (forall k, uneventful (wait_reply w k) = true) ->
  result (main v1 v2 project_id w fuel) = Running /\
  count is_wait (emitted (main v1 v2 project_id w fuel)) = fuel /\
  count is_print (emitted (main v1 v2 project_id w fuel)) = 0%nat.
Proof.
  intros HS HC Hw.
  pose proof (main_stages v1 v2 project_id w fuel) as Hm. cbv zeta in Hm.
  rewrite connection_engine_run in HC. cbn [result] in HC.
  rewrite HS, HC in Hm. rewrite Hm. cbn [result emitted].
  rewrite after_arming_run.
  destruct (poll_blocks w fuel armed eq_refl eq_refl Hw) as [Hp Hn].
  pose proof (loop_fires w fuel armed) as Hl.
  pose proof (handshake_fires w) as Hf.
  rewrite Hp in Hn, Hl |- *. cbn [result emitted] in *.
  split_and!; [reflexivity | |]; cbn [built app];
    rewrite !count_cons, !count_app, count_cons, count_handshake by (reflexivity || assumption);
    cbn [is_wait is_print is_on]; [now rewrite Hn |].
  now rewrite count_in_loop.
Qed.

(** C7: the loop does nothing but call [wait(1)], once per iteration, and
    let the library fire callbacks; it leaves exactly at the first test
    that finds the slot set, after that many waits; nothing bounds the
    number of iterations: if the response event never arrives the loop
    never leaves normally, and as long as the library's waits return it
    is still running whatever the fuel, and so is [main]. *)
Theorem poll_waits_until_result_no_timeout (w : world) (fuel : nat) (s : store) :
  Forall in_loop (emitted (poll w fuel s)) /\
  count is_wait (emitted (poll w fuel s)) =
    (waits (final (poll w fuel s)) - waits s)%nat /\
  (result (poll w fuel s) = Normal tt <->
   exists k, (k <= fuel)%nat /\ all_None_before w s k /\
             result (wait_times w k s) = Normal tt /\
             is_None (slot_at w s k) = false) /\
  (forall k, (k <= fuel)%nat -> all_None_before w s k ->
             result (wait_times w k s) = Normal tt ->
             is_None (slot_at w s k) = false ->
             poll w fuel s = wait_times w k s /\
             count is_wait (emitted (poll w fuel s)) = k) /\
  (callbacks s = callbacks armed -> project_infos s = VNone ->
   (forall k, arrives (wait_reply w k) = false) ->
   result (poll w fuel s) <> Normal tt) /\
  (callbacks s = callbacks armed -> project_infos s = VNone ->
   (forall k, arrives (wait_reply w k) = false) ->
   (forall k, uneventful (wait_reply w k) = true) ->
   result (poll w fuel s) = Running /\
   count is_wait (emitted (poll w fuel s)) = fuel) /\
  (forall v1 v2 project_id,
      SocketIO_raises w = None ->
      result (connection_engine w start) = Normal tt ->
      (forall k, arrives (wait_reply w k) = false) ->
      (forall k, uneventful (wait_reply w k) = true) ->
      result (main v1 v2 project_id w fuel) = Running /\
      count is_wait (emitted (main v1 v2 project_id w fuel)) = fuel /\
      count is_print (emitted (main v1 v2 project_id w fuel)) = 0%nat).
Proof.
  assert (Hexit : forall k, (k <= fuel)%nat -> all_None_before w s k ->
             result (wait_times w k s) = Normal tt ->
             is_None (slot_at w s k) = false ->
             poll w fuel s = wait_times w k s).
  { intros k Hk Hall Hr Hn.
    destruct (poll_spec w fuel s) as
      [(k' & _ & Hall' & Hn' & _ & Hp) | [(k' & e & _ & Hall' & Hr' & _) | (Hall' & _)]].
    - destruct (lt_eq_lt_dec k k') as [[Hlt | ->] | Hgt]; [| exact Hp |].
      + destruct (Hall' k Hlt) as [_ H]. congruence.
      + destruct (Hall k' Hgt) as [_ H]. congruence.
    - destruct (lt_eq_lt_dec k k') as [[Hlt | ->] | Hgt].
      + destruct (Hall' k Hlt) as [_ H]. congruence.
      + congruence.
      + destruct (Hall k' Hgt) as [H _]. congruence.
    - destruct (Hall' k ltac:(lia)) as [_ H]. congruence. }
  split_and!.
  - apply loop_fires.
  - destruct (poll_spec w fuel s) as
      [(k & _ & _ & _ & _ & Hp) | [(k & e & _ & _ & _ & Hp) | (_ & _ & Hp)]];
      rewrite Hp; cbn [emitted final]; apply wait_times_count.
  - split.
    + intros Hres.
      destruct (poll_spec w fuel s) as
        [(k & Hk & Hall & Hn & Hr & _) | [(k & e & _ & _ & Hr & Hp) | (_ & _ & Hp)]].
      * now exists k.
      * rewrite Hp, Hr in Hres. discriminate.
      * rewrite Hp in Hres. discriminate.
    + intros (k & Hk & Hall & Hr & Hn). now rewrite (Hexit k).
  - intros k Hk Hall Hr Hn. split; [now apply Hexit |].
    rewrite (Hexit k) by assumption. now apply wait_times_count.
  - intros Hc Hs Hw. apply poll_never_leaves; try assumption.
    intros k. apply never_arrives_keeps_None, Hw.
  - intros Hc Hs _ Hw. destruct (poll_blocks w fuel s Hc Hs Hw) as [Hp Hn].
    split; [now rewrite Hp | exact Hn].
  - intros v1 v2 project_id HS HC _ Hw. now apply main_blocks.
Qed.

Lemma poll_waits_until_result_no_timeout_witness :
  (result (main "abc" "xyz" "60f" silent_server 25) = Running /\
   count is_wait (emitted (main "abc" "xyz" "60f" silent_server 25)) = 25%nat /\
   count is_print (emitted (main "abc" "xyz" "60f" silent_server 25)) = 0%nat) /\
  (poll end_to_end 5 armed = wait_times end_to_end 1 armed /\
   count is_wait (emitted (poll end_to_end 5 armed)) = 1%nat).
Proof.
  split.
  - apply (poll_waits_until_result_no_timeout silent_server 25 start); try reflexivity.
  - apply (poll_waits_until_result_no_timeout end_to_end 5 armed); try reflexivity.
    + lia.
    + intros j Hj. assert (j = 0%nat) as -> by lia. split; reflexivity.
Defined.

(** ** A response whose [project] is null *)

Lemma null_project_keeps_None (ev : string * list value) :
  null_project ev -> slot_after VNone ev = VNone.
Proof.
  intros H. unfold slot_after.
  destruct (String.eqb_spec (fst ev) "joinProjectResponse") as [Heq|]; [| reflexivity].
  destruct (H Heq) as (d & -> & Hd). unfold extraction, method_get. now rewrite Hd.
Qed.

Lemma main_never_returns (v1 v2 project_id : string) (w : world) (fuel : nat) :
  (forall k, Forall (fun ev => slot_after VNone ev = VNone) (incoming (wait_reply w k))) ->
  result (main v1 v2 project_id w fuel) <> Normal tt /\
  count is_print (emitted (main v1 v2 project_id w fuel)) = 0%nat.
Proof.
  intros Hw.
  destruct (main_outcome v1 v2 project_id w fuel)
    as [[Hearly Hres] | (pre & k & _ & _ & _ & _ & Hn & _)].
  - split; [exact Hres |]. apply count_early; [now intros [] | exact Hearly].
  - now rewrite (slot_stays_None w Hw k armed eq_refl eq_refl) in Hn.
Qed.

(** C9: a response whose [project] is present and null makes the handler
    store [None] (the empty-mapping default is for an absent key only),
    so the test of the loop fails again and the loop goes on; as long as
    no other response comes, [main] never returns and prints nothing. *)
Theorem null_project_keeps_waiting :
  (forall (d : gmap string value) (s : store),
      d !! "project" = Some VNone ->
      result (set_project_infos (VDict d) s) = Normal tt /\
      project_infos (final (set_project_infos (VDict d) s)) = VNone) /\
  extraction (VDict {[ "project" := VNone ]}) = Ok VNone /\
  extraction (VDict ∅) = Ok (VDict ∅) /\
  (forall (d : gmap string value) (w : world) (s : store),
      d !! "project" = Some VNone ->
      callbacks s = callbacks armed -> project_infos s = VNone ->
      wait_reply w (waits s) = Reply [("joinProjectResponse", [VDict d])] None ->
      result (wait w 1 s) = Normal tt /\
      project_infos (final (wait w 1 s)) = VNone /\
      result (poll w 1 s) = Running) /\
  (forall (w : world) (fuel : nat) (s : store),
      callbacks s = callbacks armed -> project_infos s = VNone ->
      (forall k, Forall null_project (incoming (wait_reply w k))) ->
      result (poll w fuel s) <> Normal tt) /\
  (forall (v1 v2 project_id : string) (w : world) (fuel : nat),
      (forall k, Forall null_project (incoming (wait_reply w k))) ->
      result (main v1 v2 project_id w fuel) <> Normal tt /\
      count is_print (emitted (main v1 v2 project_id w fuel)) = 0%nat) /\
  (forall fuel, result (main "abc" "xyz" "60f" null_project_server fuel) = Running).
Proof.
  assert (Hnull : forall w : world,
             (forall k, Forall null_project (incoming (wait_reply w k))) ->
             forall k, Forall (fun ev => slot_after VNone ev = VNone)
                              (incoming (wait_reply w k))).
  { intros w Hw k. eapply Forall_impl; [apply Hw | apply null_project_keeps_None]. }
  split_and!.
  - intros d s Hd. rewrite set_project_infos_run. unfold extraction, method_get.
    now rewrite Hd.
  - reflexivity.
  - reflexivity.
  - intros d w s Hd Hc Hs Hw.
    assert (Hu : uneventful (wait_reply w (waits s)) = true).
    { rewrite Hw. unfold uneventful, harmless, extraction, method_get.
      cbn. now rewrite Hd. }
    destruct (wait_uneventful w s Hc Hs Hu) as [Hr Hn].
    split_and!; [exact Hr | exact Hn |].
    rewrite (poll_iterate w 0 s) by now rewrite Hs.
    rewrite (bind_normal _ _ _ _ Hr). cbn [result].
    rewrite poll_out_of_fuel by now rewrite Hn. reflexivity.
  - intros w fuel s Hc Hs Hw. apply poll_never_leaves; auto.
  - intros v1 v2 project_id w fuel Hw. apply main_never_returns; auto.
  - intros fuel. apply main_blocks; [reflexivity | reflexivity |].
    intros [|k]; reflexivity.
Qed.

(** ** Repeated responses *)

Lemma firings_last (payloads : list value) (p : value) (s : store) :
  callbacks s !! "joinProjectResponse" = Some Set_project_infos ->
  result (dispatch (firings (payloads ++ [p])) s) = Normal tt ->
  extraction p = Ok (project_infos (final (dispatch (firings (payloads ++ [p])) s))).
Proof.
  revert s. induction payloads as [|q payloads IH]; intros s Hcb;
    cbn [firings map app]; rewrite dispatch_cons, Hcb; cbn [call];
    rewrite set_project_infos_run.
  - now destruct (extraction p).
  - destruct (extraction q) as [v|e]; cbn [result emitted final]; [| discriminate].
    apply IH. exact Hcb.
Qed.

Lemma firings_of_mappings (ds : list (gmap string value)) (s : store) :
  callbacks s !! "joinProjectResponse" = Some Set_project_infos ->
  result (dispatch (firings (map VDict ds)) s) = Normal tt.
Proof.
  revert s. induction ds as [|d ds IH]; intros s Hcb; [reflexivity |].
  cbn [firings map]. rewrite dispatch_cons, Hcb. cbn [call].
  rewrite set_project_infos_run. cbn [extraction method_get result emitted final].
  apply IH. exact Hcb.
Qed.

(** C10: nothing guards the slot: a firing of the handler stores the
    extraction of its payload whatever the slot held, so after a sequence
    of firings the slot holds the extraction of the last payload; and
    what [main] prints is the slot as the first test of the loop that
    found it set read it. *)
Theorem slot_overwritten_by_each_firing :
  (forall (p v : value) (s : store),
      extraction p = Ok v ->
      set_project_infos p s = Run [] (Store v (callbacks s) (waits s)) (Normal tt)) /\
  (forall (payloads : list value) (p : value) (s : store),
      callbacks s !! "joinProjectResponse" = Some Set_project_infos ->
      result (dispatch (firings (payloads ++ [p])) s) = Normal tt ->
      extraction p = Ok (project_infos (final (dispatch (firings (payloads ++ [p])) s)))) /\
  (forall (ds : list (gmap string value)) (s : store),
      callbacks s !! "joinProjectResponse" = Some Set_project_infos ->
      result (dispatch (firings (map VDict ds)) s) = Normal tt) /\
  (forall (v1 v2 project_id : string) (w : world) (fuel : nat) (v : value),
      In (Call_print v) (emitted (main v1 v2 project_id w fuel)) ->
      exists k, (k <= fuel)%nat /\ all_None_before w armed k /\
                result (wait_times w k armed) = Normal tt /\
                slot_at w armed k = v /\ is_None v = false) /\
  (let r := main "abc" "xyz" "60f" two_responses 1 in
   result r = Normal tt /\
   count (is_fire "joinProjectResponse") (emitted r) = 2%nat /\
   In (Call_print (VDict {[ "name" := VStr "second" ]})) (emitted r)).
Proof.
  split_and!.
  - intros p v s H. now rewrite set_project_infos_run, H.
  - apply firings_last.
  - apply firings_of_mappings.
  - intros v1 v2 project_id w fuel v Hin.
    destruct (main_outcome v1 v2 project_id w fuel)
      as [[Hearly _] | (pre & k & Hpre & Hk & Hall & Hr & Hn & Htr & _)].
    + rewrite List.Forall_forall in Hearly. destruct (Hearly _ Hin).
    + rewrite Htr in Hin. apply in_app_or in Hin as [Hin | Hin].
      * rewrite List.Forall_forall in Hpre. destruct (Hpre _ Hin).
      * exists k. unfold closing in Hin.
        assert (Hv : Call_print (slot_at w armed k) = Call_print v).
        { destruct (connected_now w); [destruct (disconnect_raises w) |];
            cbn [fst In] in Hin; intuition congruence. }
        injection Hv as <-. now split_and!.
  - vm_compute. split_and!; [reflexivity | reflexivity |].
    do 11 right. left. reflexivity.
Qed.

(** ** Output and exit status *)

(** X1: [main] prints at most once, and it prints exactly when it
    returns normally, that is when the process exits with status 0. *)
Theorem output_iff_success (v1 v2 project_id : string) (w : world) (fuel : nat) :
  let r := main v1 v2 project_id w fuel in
  count is_print (emitted r) =
    match result r with
    | Normal _ => 1%nat
    | _ => 0%nat
    end /\
  (exit_status (result r) = Some 0 <-> count is_print (emitted r) = 1%nat).
Proof.
  cbv zeta.
  assert (He : forall l, Forall early l -> count is_print l = 0%nat).
  { intros l. apply count_early. now intros []. }
  destruct (main_outcome v1 v2 project_id w fuel)
    as [[Hearly Hres] | (pre & k & Hpre & _ & _ & _ & _ & Htr & Hr & _)].
  - rewrite (He _ Hearly).
    destruct (result (main v1 v2 project_id w fuel)) as [[]|e|];
      [congruence | |]; cbn; (split; [reflexivity | split; discriminate]).
  - rewrite Htr, Hr, count_app, (He _ Hpre). unfold closing.
    destruct (connected_now w); [destruct (disconnect_raises w) |]; cbn;
      (split; [reflexivity | split; congruence]).
Qed.

(** X2: when [main] ends with an exception nothing has been printed;
    and either it never disconnected (no clean-up on the way out), or the
    exception is the one [disconnect()] raised, after a result was
    already there. *)
Theorem exception_leaves_no_output
    (v1 v2 project_id : string) (w : world) (fuel : nat) (e : exn) :
  result (main v1 v2 project_id w fuel) = Raised e ->
  count is_print (emitted (main v1 v2 project_id w fuel)) = 0%nat /\
  (count is_disconnect (emitted (main v1 v2 project_id w fuel)) = 0%nat \/
   (connected_now w = true /\ disconnect_raises w = Some e /\
    count is_disconnect (emitted (main v1 v2 project_id w fuel)) = 1%nat /\
    is_None (project_infos (final (main v1 v2 project_id w fuel))) = false)).
Proof.
  intros Hres.
  destruct (main_outcome v1 v2 project_id w fuel)
    as [[Hearly _] | (pre & k & Hpre & _ & _ & _ & Hn & Htr & Hr & Hs)].
  - split; [| left]; (apply count_early; [now intros [] | exact Hearly]).
  - rewrite Hres in Hr. rewrite Htr, !count_app, Hs.
    rewrite (count_early is_print pre) by (now intros [] || assumption).
    rewrite (count_early is_disconnect pre) by (now intros [] || assumption).
    unfold closing in *.
    destruct (connected_now w); [destruct (disconnect_raises w) as [e'|] |];
      cbn [fst snd] in *; try discriminate.
    injection Hr as <-. split; [reflexivity |]. right. now split_and!.
Qed.

Lemma exception_leaves_no_output_witness :
  count is_print (emitted (main "abc" "xyz" "60f" disconnect_fails 1)) = 0%nat /\
  count is_disconnect (emitted (main "abc" "xyz" "60f" disconnect_fails 1)) = 1%nat /\
  is_None (project_infos (final (main "abc" "xyz" "60f" disconnect_fails 1))) = false.
Proof.
  destruct (exception_leaves_no_output "abc" "xyz" "60f" disconnect_fails 1
              (LibraryError "ConnectionError" "connection lost"))
    as (Hp & [H0 | (_ & _ & H1 & Hn)]).
  - vm_compute. reflexivity.
  - vm_compute in H0. discriminate.
  - now split_and!.
Defined.

(** ** Events and the handlers they reach *)

Lemma dispatch_fired_received (events : list (string * list value)) (s : store) :
  Forall (fun a => exists name args, a = Fire name args /\ In (name, args) events)
         (emitted (dispatch events s)).
Proof.
  revert s. induction events as [|[name args] events IH]; intros s; [constructor |].
  assert (Htl : forall s', Forall (fun a => exists n x, a = Fire n x /\
                                     In (n, x) ((name, args) :: events))
                                  (emitted (dispatch events s'))).
  { intros s'. eapply Forall_impl; [apply IH |].
    intros a (n & x & -> & Hin). exists n, x. split; [reflexivity | now right]. }
  rewrite dispatch_cons. destruct (callbacks s !! name) as [cb|]; [| apply Htl].
  destruct (call_frame cb args s) as (He & _). cbv zeta. rewrite He.
  assert (Hhd : exists n x, Fire name args = Fire n x /\ In (n, x) ((name, args) :: events))
    by (exists name, args; split; [reflexivity | now left]).
  destruct (result (call cb args s)) as [[]|e|]; cbn [emitted app];
    constructor; try exact Hhd; try constructor. apply Htl.
Qed.

Lemma wait_fired_received (w : world) (seconds : Z) (s : store) :
  exists fires,
    emitted (wait w seconds s) = Call_wait seconds :: fires /\
    Forall (fun a => exists name args,
                a = Fire name args /\ In (name, args) (incoming (wait_reply w (waits s))))
           fires.
Proof.
  rewrite wait_run, answer_run. cbv zeta.
  pose proof (dispatch_fired_received (incoming (wait_reply w (waits s)))
                (Store (project_infos s) (callbacks s) (S (waits s)))) as H.
  destruct (result (dispatch _ _)) as [[]|e|]; [destruct (failure _) | |];
    cbn [emitted]; eexists; split; try reflexivity; exact H.
Qed.

Lemma wait_times_fired_received (w : world) (k : nat) (s : store) :
  Forall (from_a_wait w) (emitted (wait_times w k s)).
Proof.
  revert s. induction k as [|k IH]; intros s; [constructor |].
  rewrite wait_times_S, bind_run.
  destruct (wait_fired_received w 1 s) as (fires & He & Hf).
  assert (Hw : Forall (from_a_wait w) (emitted (wait w 1 s))).
  { rewrite He. constructor; [now left |].
    eapply Forall_impl; [exact Hf |]. intros a (n & x & -> & Hin). right. eauto. }
  destruct (result (wait w 1 s)) as [[]|e|]; cbn [emitted]; try exact Hw.
  apply Forall_app. split; [exact Hw | apply IH].
Qed.

Lemma poll_fired_received (w : world) (fuel : nat) (s : store) :
  Forall (from_a_wait w) (emitted (poll w fuel s)).
Proof.
  destruct (poll_spec w fuel s) as
    [(k & _ & _ & _ & _ & Hp) | [(k & e & _ & _ & _ & Hp) | (_ & _ & Hp)]];
    rewrite Hp; cbn [emitted]; apply wait_times_fired_received.
Qed.

Lemma not_arrived (r : reply) (args : list value) :
  arrives r = false -> ~ In ("joinProjectResponse", args) (incoming r).
Proof.
  unfold arrives. intros H Hin.
  assert (Ht : existsb (fun ev => String.eqb (fst ev) "joinProjectResponse") (incoming r)
               = true).
  { apply existsb_exists. exists ("joinProjectResponse", args). now split. }
  congruence.
Qed.

(** Events that are not the response leave the whole store of the armed
    client as it was. *)
Lemma dispatch_other_events (events : list (string * list value)) (s : store) :
  callbacks s = callbacks armed ->
  existsb (fun ev => String.eqb (fst ev) "joinProjectResponse") events = false ->
  final (dispatch events s) = s.
Proof.
  intros Hc. induction events as [|[name args] events IH]; cbn [existsb fst];
    intros Hev; [reflexivity |].
  apply orb_false_iff in Hev as [Hname Hev].
  rewrite dispatch_cons, (armed_lookup _ _ Hc), Hname.
  destruct (String.eqb name "connect"); [| now apply IH].
  cbv zeta. pose proof (call_Lambda_None_final args s) as Hf.
  destruct (result (call Lambda_None args s)) as [[]|e|]; cbn [final]; rewrite ?Hf;
    auto.
Qed.

(** X3: an event that is not [joinProjectResponse] never changes the
    result slot, whatever the slot holds and even when the event makes
    the wait raise: a wait that received no response leaves the slot and
    the table of callbacks as they were. *)
Theorem other_events_keep_the_slot (w : world) (seconds : Z) (s : store) :
  callbacks s = callbacks armed ->
  arrives (wait_reply w (waits s)) = false ->
  project_infos (final (wait w seconds s)) = project_infos s /\
  callbacks (final (wait w seconds s)) = callbacks s /\
  count (is_fire "joinProjectResponse") (emitted (wait w seconds s)) = 0%nat.
Proof.
  intros Hc Ha. split_and!.
  - rewrite wait_run, answer_run. cbv zeta.
    pose proof (dispatch_other_events (incoming (wait_reply w (waits s)))
                  (Store (project_infos s) (callbacks s) (S (waits s))) Hc Ha) as Hf.
    destruct (result (dispatch _ _)) as [[]|e|]; [destruct (failure _) | |];
      cbn [final]; now rewrite Hf.
  - apply wait_frame.
  - destruct (wait_fired_received w seconds s) as (fires & -> & Hf).
    rewrite count_cons. cbn [is_fire].
    erewrite (count_Forall (is_fire "joinProjectResponse")); [reflexivity | | exact Hf].
    intros a (n & x & -> & Hin). cbn [is_fire].
    destruct (String.eqb_spec n "joinProjectResponse") as [-> |]; [| reflexivity].
    now apply not_arrived in Hin.
Qed.

Lemma other_events_keep_the_slot_witness :
  let s := Store (VStr "kept") (callbacks armed) 1 in
  project_infos (final (wait connection_drops 1 s)) = VStr "kept" /\
  callbacks (final (wait connection_drops 1 s)) = callbacks armed /\
  count (is_fire "joinProjectResponse") (emitted (wait connection_drops 1 s)) = 0%nat.
Proof.
  apply (other_events_keep_the_slot connection_drops 1
           (Store (VStr "kept") (callbacks armed) 1)); reflexivity.
Defined.

Lemma count_response_fires_in_loop (w : world) (l : list action) :
  (forall k, arrives (wait_reply w k) = false) ->
  Forall (from_a_wait w) l ->
  count (is_fire "joinProjectResponse") l = 0%nat.
Proof.
  intros Hw. apply count_Forall.
  intros a [-> | (n & x & j & -> & Hin)]; [reflexivity |]. cbn [is_fire].
  destruct (String.eqb_spec n "joinProjectResponse") as [-> |]; [| reflexivity].
  now apply not_arrived in Hin.
Qed.

(** X4: a response that the library delivers during
    [wait_for_callbacks], before the handler is registered, is lost: the
    store after line 39 is the same whatever was delivered, the handler
    never fires for it, and unless the response comes again during a
    later wait [main] never returns and prints nothing. *)
Theorem response_before_arming_is_lost
    (v1 v2 project_id : string) (w : world) (fuel : nat) :
  (forall k, arrives (wait_reply w k) = false) ->
  final (connection_engine w start) = connecting /\
  count (is_fire "joinProjectResponse") (emitted (main v1 v2 project_id w fuel)) = 0%nat /\
  result (main v1 v2 project_id w fuel) <> Normal tt /\
  count is_print (emitted (main v1 v2 project_id w fuel)) = 0%nat.
Proof.
  intros Hw.
  assert (Hnr := main_never_returns v1 v2 project_id w fuel
                   (fun k => never_arrives_keeps_None _ (Hw k))).
  destruct Hnr as [Hres Hprint].
  split_and!; [| | exact Hres | exact Hprint].
  - rewrite connection_engine_run. cbn [final]. apply answer_inert.
    intros name cb H. now apply connecting_callbacks in H.
  - pose proof (main_stages v1 v2 project_id w fuel) as Hm. cbv zeta in Hm.
    pose proof (handshake_fires w) as Hf.
    destruct (SocketIO_raises w) as [e|]; [now rewrite Hm |].
    destruct (result (answer (wait_for_callbacks_reply w) connecting))
      as [[]|e|]; [| | contradiction]; rewrite Hm; cbn [emitted built app];
      rewrite ?count_app, !count_cons, ?count_app, ?count_cons; cbn [is_fire is_on];
      rewrite (count_Forall (is_fire "joinProjectResponse") in_handshake)
        by (assumption || now intros a [args ->]); [| reflexivity].
    rewrite after_arming_run.
    pose proof (poll_fired_received w fuel armed) as Hp.
    destruct (result (poll w fuel armed)) as [[]|e|]; cbn [emitted];
      rewrite ?count_app, (count_response_fires_in_loop w _ Hw Hp); try reflexivity.
    now rewrite (count_in_closing (is_fire "joinProjectResponse") _
                   (fun _ => eq_refl) eq_refl (fun _ => eq_refl) (closing_in_closing w _)).
Qed.

Lemma response_before_arming_is_lost_witness :
  arrives (wait_for_callbacks_reply early_response) = true /\
  count (is_fire "joinProjectResponse")
        (emitted (main "abc" "xyz" "60f" early_response 40)) = 0%nat /\
  result (main "abc" "xyz" "60f" early_response 40) <> Normal tt.
Proof.
  split; [reflexivity |].
  destruct (response_before_arming_is_lost "abc" "xyz" "60f" early_response 40)
    as (_ & H1 & H2 & _).
  - intros k. reflexivity.
  - now split.
Defined.

(** ** The wait in which the response arrives *)

Lemma store_eta (s : store) (v : value) :
  project_infos s = v -> Store v (callbacks s) (waits s) = s.
Proof. destruct s. cbn. now intros ->. Qed.

(** A harmless event in front of others only adds its firing. *)
Lemma dispatch_harmless_cons (name : string) (args : list value)
    (events : list (string * list value)) (s : store) :
  callbacks s = callbacks armed -> project_infos s = VNone ->
  harmless (name, args) = true ->
  exists fires,
    dispatch ((name, args) :: events) s =
    Run (fires ++ emitted (dispatch events s))
        (final (dispatch events s)) (result (dispatch events s)).
Proof.
  intros Hc Hs Hh. rewrite dispatch_cons, (armed_lookup _ _ Hc).
  unfold harmless in Hh. cbn [fst snd] in Hh.
  destruct (String.eqb name "joinProjectResponse").
  - destruct args as [|p [|q args]]; try discriminate.
    cbn [call]. rewrite set_project_infos_run.
    destruct (extraction p) as [[]|e]; try discriminate.
    cbn [result emitted final]. rewrite (store_eta s VNone Hs).
    now exists [Fire name [p]].
  - destruct (String.eqb name "connect").
    + destruct args; [| discriminate]. cbn [call result emitted final].
      now exists [Fire name []].
    + exists []. now destruct (dispatch events s).
Qed.

Lemma dispatch_harmless_prefix (pre events : list (string * list value)) (s : store) :
  callbacks s = callbacks armed -> project_infos s = VNone ->
  forallb harmless pre = true ->
  exists fires,
    dispatch (pre ++ events) s =
    Run (fires ++ emitted (dispatch events s))
        (final (dispatch events s)) (result (dispatch events s)).
Proof.
  intros Hc Hs. induction pre as [|[name args] pre IH]; cbn [forallb app]; intros Hpre.
  - exists []. now destruct (dispatch events s).
  - apply andb_true_iff in Hpre as [Hhd Hpre].
    destruct (IH Hpre) as (fires' & IH').
    destruct (dispatch_harmless_cons name args (pre ++ events) s Hc Hs Hhd) as (fires & ->).
    rewrite IH'. cbn [emitted final result]. exists (fires ++ fires').
    now rewrite app_assoc.
Qed.

Lemma inert_not_response (events : list (string * list value)) :
  forallb inert events = true ->
  existsb (fun ev => String.eqb (fst ev) "joinProjectResponse") events = false.
Proof.
  induction events as [|ev events IH]; cbn [forallb existsb]; [reflexivity |].
  intros H. apply andb_true_iff in H as [Hev H]. unfold inert in Hev.
  apply andb_true_iff in Hev as [Hn _]. apply negb_true_iff in Hn.
  now rewrite Hn, IH.
Qed.


Lemma count_wait_one (w : world) (s : store) :
  count is_wait (emitted (wait w 1 s)) = 1%nat.
Proof.
  destruct (wait_fired_received w 1 s) as (fires & -> & Hf).
  rewrite count_cons. cbn [is_wait].
  erewrite (count_Forall is_wait); [reflexivity | | exact Hf].
  now intros a (n & x & -> & _).
Qed.

(** [k] waits that bring nothing, then the rest of the loop. *)
Lemma poll_after_quiet_waits (w : world) (k fuel : nat) (s : store) :
  callbacks s = callbacks armed -> project_infos s = VNone ->
  (forall j, (j < k)%nat -> uneventful (wait_reply w (waits s + j)) = true) ->
  exists quiet,
    count is_wait quiet = k /\ Forall early quiet /\
    poll w (k + fuel) s =
    let p := poll w fuel (Store VNone (callbacks s) (waits s + k)) in
    Run (quiet ++ emitted p) (final p) (result p).
Proof.
  revert s. induction k as [|k IH]; intros s Hc Hs Hq.
  - exists []. split_and!; [reflexivity | constructor |].
    cbn [Nat.add]. rewrite Nat.add_0_r, (store_eta s VNone Hs). cbv zeta.
    now destruct (poll w fuel s).
  - destruct (wait_uneventful w s Hc Hs) as [Hr Hn].
    { rewrite <- (Nat.add_0_r (waits s)). apply Hq. lia. }
    destruct (wait_frame w 1 s) as (_ & Hc' & Hw' & _).
    assert (Hs1 : final (wait w 1 s) = Store VNone (callbacks s) (S (waits s))).
    { rewrite <- Hc', <- Hw'. symmetry. now apply store_eta. }
    destruct (IH (final (wait w 1 s))) as (quiet & Hcount & Hearly & Hp).
    + congruence.
    + exact Hn.
    + intros j Hj. rewrite Hw'. replace (S (waits s) + j)%nat with (waits s + S j)%nat by lia.
      apply Hq. lia.
    + exists (emitted (wait w 1 s) ++ quiet). split_and!.
      * rewrite count_app, count_wait_one, Hcount. reflexivity.
      * apply Forall_app. split; [| exact Hearly].
        destruct (wait_frame w 1 s) as ((fires & -> & Hf) & _).
        constructor; [reflexivity |].
        eapply Forall_impl; [exact Hf | now intros a (n & x & cb & -> & _)].
      * cbn [Nat.add]. rewrite poll_iterate by now rewrite Hs.
        rewrite (bind_normal _ _ _ _ Hr), Hp. cbv zeta. cbn [emitted final result].
        rewrite Hc', Hw', <- app_assoc.
        replace (S (waits s) + k)%nat with (waits s + S k)%nat by lia. reflexivity.
Qed.

Lemma extraction_non_mapping (p : value) :
  is_mapping p = false ->
  extraction p =
    Err (AttributeError ("'" +:+ type_name p +:+ "' object has no attribute 'get'")).
Proof. now destruct p. Qed.

Lemma wait_malformed (w : world) (s : store)
    (pre rest : list (string * list value)) (p : value) :
  callbacks s = callbacks armed -> project_infos s = VNone ->
  incoming (wait_reply w (waits s)) = pre ++ ("joinProjectResponse", [p]) :: rest ->
  forallb harmless pre = true ->
  is_mapping p = false ->
  result (wait w 1 s) =
    Raised (AttributeError ("'" +:+ type_name p +:+ "' object has no attribute 'get'")) /\
  project_infos (final (wait w 1 s)) = VNone.
Proof.
  intros Hc Hs Hin Hpre Hp. rewrite wait_run, answer_run, Hin. cbv zeta.
  destruct (dispatch_harmless_prefix pre (("joinProjectResponse", [p]) :: rest)
              (Store (project_infos s) (callbacks s) (S (waits s))) Hc Hs Hpre)
    as (fires & ->).
  cbn [result emitted final].
  rewrite dispatch_cons, (armed_lookup _ _ Hc), String.eqb_refl. cbn [call].
  rewrite set_project_infos_run, (extraction_non_mapping p Hp).
  cbn [result emitted final project_infos]. now split.
Qed.


(** After a handshake that went through, [main] is its first 38 lines,
    in which nothing waits, prints or disconnects, and then lines 41-49. *)
Lemma main_after_handshake (v1 v2 project_id : string) (w : world) (fuel : nat) :
  SocketIO_raises w = None ->
  result (connection_engine w start) = Normal tt ->
  exists pre,
    Forall early pre /\ count is_wait pre = 0%nat /\
    main v1 v2 project_id w fuel =
    let r2 := after_arming w fuel armed in
    Run (pre ++ emitted r2) (final r2) (result r2).
Proof.
  intros HS HC.
  pose proof (main_stages v1 v2 project_id w fuel) as Hm. cbv zeta in Hm.
  rewrite connection_engine_run in HC. cbn [result] in HC. rewrite HS, HC in Hm.
  pose proof (handshake_fires w) as Hf.
  exists ((built v1 v2 project_id w ++
           [Call_on "connect" Lambda_None; Call_wait_for_callbacks] ++
           emitted (answer (wait_for_callbacks_reply w) connecting)) ++
          [Call_on "joinProjectResponse" Set_project_infos]).
  split_and!; [| | rewrite Hm; cbv zeta; now rewrite <- (app_assoc _ [_])].
  - apply Forall_app. split; [| now repeat constructor].
    apply Forall_app. split; [now repeat constructor |].
    apply Forall_app. split; [now repeat constructor |].
    eapply Forall_impl; [exact Hf | now intros a [args ->]].
  - cbn [built app]. rewrite !count_cons, count_app, !count_cons.
    cbn [is_wait]. now rewrite count_handshake.
Qed.

Lemma wait_early (w : world) (s : store) : Forall early (emitted (wait w 1 s)).
Proof.
  destruct (wait_frame w 1 s) as ((fires & -> & Hf) & _).
  constructor; [reflexivity |].
  eapply Forall_impl; [exact Hf | now intros a (n & x & cb & -> & _)].
Qed.

(** X5: a response whose payload is not a mapping ends the client: when
    the waits before brought nothing and the events before it in its own
    wait are harmless, [main] raises the AttributeError of the handler
    after exactly that many waits plus one, exits with status 1, prints
    nothing and leaves the connection open. *)
Theorem malformed_response_raises
    (v1 v2 project_id : string) (w : world) (fuel k : nat)
    (pre rest : list (string * list value)) (p : value) :
  SocketIO_raises w = None ->
  result (connection_engine w start) = Normal tt ->
  (forall j, (j < k)%nat -> uneventful (wait_reply w j) = true) ->
  incoming (wait_reply w k) = pre ++ ("joinProjectResponse", [p]) :: rest ->
  forallb harmless pre = true ->
  is_mapping p = false ->
  (k < fuel)%nat ->
  let r := main v1 v2 project_id w fuel in
  result r =
    Raised (AttributeError ("'" +:+ type_name p +:+ "' object has no attribute 'get'")) /\
  exit_status (result r) = Some 1 /\
  count is_wait (emitted r) = S k /\
  count is_print (emitted r) = 0%nat /\
  count is_disconnect (emitted r) = 0%nat.
Proof.
  intros HS HC Hq Hin Hpre Hp Hk. cbv zeta.
  remember (fuel - S k)%nat as f eqn:Hf.
  assert (Hfuel : fuel = (k + S f)%nat) by lia. clear Hf Hk. subst fuel.
  destruct (main_after_handshake v1 v2 project_id w (k + S f) HS HC)
    as (pre0 & Hearly0 & Hw0 & ->).
  cbv zeta. rewrite after_arming_run.
  destruct (poll_after_quiet_waits w k (S f) armed eq_refl eq_refl)
    as (quiet & Hcq & Heq & ->); [exact Hq |].
  cbv zeta. set (sk := Store VNone (callbacks armed) (waits armed + k)).
  rewrite (poll_iterate w f sk) by reflexivity.
  destruct (wait_malformed w sk pre rest p eq_refl eq_refl Hin Hpre Hp) as [Hr _].
  rewrite (bind_raised _ _ _ _ Hr). cbn [result emitted final].
  pose proof (wait_early w sk) as Hwe.
  split_and!; [reflexivity | reflexivity | | |]; rewrite !count_app.
  - rewrite Hw0, Hcq, count_wait_one. lia.
  - now rewrite !(count_early is_print) by (now intros [] || assumption).
  - now rewrite !(count_early is_disconnect) by (now intros [] || assumption).
Qed.

Lemma malformed_response_raises_witness :
  let r := main "abc" "xyz" "60f" malformed_response 9 in
  result r = Raised (AttributeError "'list' object has no attribute 'get'") /\
  exit_status (result r) = Some 1 /\
  count is_wait (emitted r) = 3%nat /\
  count is_print (emitted r) = 0%nat /\
  count is_disconnect (emitted r) = 0%nat.
Proof.
  apply (malformed_response_raises "abc" "xyz" "60f" malformed_response 9 2
           [("connect", [])] [] (VList [VStr "project"])); try reflexivity.
  - intros [|[|j]] Hj; [reflexivity | reflexivity | lia].
  - lia.
Defined.



(** ** Where the printed value comes from *)

Lemma dispatch_slot_origin (events : list (string * list value)) (s : store) :
  callbacks s = callbacks armed ->
  project_infos (final (dispatch events s)) = project_infos s \/
  exists p, In ("joinProjectResponse", [p]) events /\
            extraction p = Ok (project_infos (final (dispatch events s))).
Proof.
  intros Hc. revert s Hc. induction events as [|[name args] events IH]; intros s Hc;
    [now left |].
  rewrite dispatch_cons, (armed_lookup _ _ Hc).
  assert (Htl : forall s', callbacks s' = callbacks armed ->
            project_infos s' = project_infos s ->
            project_infos (final (dispatch events s')) = project_infos s \/
            exists p, In ("joinProjectResponse", [p]) ((name, args) :: events) /\
                      extraction p = Ok (project_infos (final (dispatch events s')))).
  { intros s' Hc' Hs'. destruct (IH s' Hc') as [H | (p & Hin & Hp)].
    - left. congruence.
    - right. exists p. split; [now right | exact Hp]. }
  destruct (String.eqb_spec name "joinProjectResponse") as [-> | _].
  - destruct args as [|p [|q args]]; cbn [call raise result final]; try now left.
    rewrite set_project_infos_run.
    destruct (extraction p) as [v|e] eqn:Hp; cbn [result final]; [| now left].
    destruct (IH (Store v (callbacks s) (waits s)) Hc) as [H | (p' & Hin & Hp')].
    + right. exists p. split; [now left |]. cbn [project_infos] in H. congruence.
    + right. exists p'. split; [now right | exact Hp'].
  - destruct (String.eqb name "connect"); [| now apply Htl].
    destruct args; cbn [call raise result final]; [now apply Htl | now left].
Qed.

Lemma wait_slot_origin (w : world) (s : store) :
  callbacks s = callbacks armed ->
  project_infos (final (wait w 1 s)) = project_infos s \/
  exists p, In ("joinProjectResponse", [p]) (incoming (wait_reply w (waits s))) /\
            extraction p = Ok (project_infos (final (wait w 1 s))).
Proof.
  intros Hc. rewrite wait_run, answer_run. cbv zeta.
  pose proof (dispatch_slot_origin (incoming (wait_reply w (waits s)))
                (Store (project_infos s) (callbacks s) (S (waits s))) Hc) as H.
  destruct (result (dispatch _ _)) as [[]|e|]; [destruct (failure _) | |];
    cbn [final]; exact H.
Qed.

Lemma wait_times_slot_origin (w : world) (k : nat) (s : store) :
  callbacks s = callbacks armed ->
  slot_at w s k = project_infos s \/
  exists j p, (waits s <= j < waits s + k)%nat /\
              In ("joinProjectResponse", [p]) (incoming (wait_reply w j)) /\
              extraction p = Ok (slot_at w s k).
Proof.
  unfold slot_at. revert s. induction k as [|k IH]; intros s Hc; [now left |].
  rewrite wait_times_S, bind_run.
  destruct (wait_frame w 1 s) as (_ & Hc' & Hw' & _).
  assert (Hhere : forall v, project_infos (final (wait w 1 s)) = v ->
            v = project_infos s \/
            exists j p, (waits s <= j < waits s + S k)%nat /\
                        In ("joinProjectResponse", [p]) (incoming (wait_reply w j)) /\
                        extraction p = Ok v).
  { intros v <-. destruct (wait_slot_origin w s Hc) as [H | (p & Hin & Hp)];
      [now left |]. right. exists (waits s), p. split_and!; [lia | lia | exact Hin | exact Hp]. }
  destruct (result (wait w 1 s)) as [[]|e|]; cbn [final]; try now apply Hhere.
  destruct (IH (final (wait w 1 s)) ltac:(congruence)) as [H | (j & p & Hj & Hin & Hp)].
  - rewrite H. now apply Hhere.
  - right. exists j, p. rewrite Hw' in Hj. split_and!; [lia | lia | exact Hin | exact Hp].
Qed.

(** X7: [main] prints nothing of its own: a printed value is the
    extraction of the payload of a [joinProjectResponse] event that one of
    the waits of the loop received, and it is not [None]. *)
Theorem printed_value_comes_from_a_response
    (v1 v2 project_id : string) (w : world) (fuel : nat) (v : value) :
  In (Call_print v) (emitted (main v1 v2 project_id w fuel)) ->
  is_None v = false /\
  exists j p, (j < fuel)%nat /\
              In ("joinProjectResponse", [p]) (incoming (wait_reply w j)) /\
              extraction p = Ok v.
Proof.
  intros Hin.
  destruct (main_outcome v1 v2 project_id w fuel)
    as [[Hearly _] | (pre & k & Hpre & Hk & _ & _ & Hn & Htr & _)].
  - rewrite List.Forall_forall in Hearly. destruct (Hearly _ Hin).
  - rewrite Htr in Hin. apply in_app_or in Hin as [Hin | Hin].
    + rewrite List.Forall_forall in Hpre. destruct (Hpre _ Hin).
    + assert (Hv : Call_print (slot_at w armed k) = Call_print v).
      { unfold closing in Hin.
        destruct (connected_now w); [destruct (disconnect_raises w) |];
          cbn [fst In] in Hin; intuition congruence. }
      injection Hv as <-. split; [exact Hn |].
      destruct (wait_times_slot_origin w k armed eq_refl) as [H | (j & p & Hj & Hp)].
      * rewrite H in Hn. discriminate.
      * exists j, p. cbn [waits armed] in Hj. split; [lia | exact Hp].
Qed.

Lemma printed_value_comes_from_a_response_witness :
  exists j p, (j < 1)%nat /\
              In ("joinProjectResponse", [p]) (incoming (wait_reply end_to_end j)) /\
              extraction p = Ok (VDict {[ "rootDoc_id" := VStr "d1" ]}).
Proof.
  apply (printed_value_comes_from_a_response "abc" "xyz" "60f" end_to_end 1).
  vm_compute. do 10 right. left. reflexivity.
Defined.

(** ** The cookie header, read back *)

Lemma string_app_inv_head (s t u : string) : s +:+ t = s +:+ u -> t = u.
Proof.
  induction s as [|c s IH]; [easy |].
  change (String c (s +:+ t) = String c (s +:+ u) -> t = u).
  intros [= H]. now apply IH.
Qed.

Lemma string_app_assoc (s t u : string) : (s +:+ t) +:+ u = s +:+ t +:+ u.
Proof.
  induction s as [|c s IH]; [reflexivity |].
  change (String c ((s +:+ t) +:+ u) = String c (s +:+ t +:+ u)). now rewrite IH.
Qed.

Lemma split_at_first (c : ascii) (s s' t t' : string) :
  contains_char c s = false -> contains_char c s' = false ->
  s +:+ String c t = s' +:+ String c t' ->
  s = s' /\ t = t'.
Proof.
  revert s'. induction s as [|a s IH]; intros [|a' s'] Hs Hs'.
  - change (String c t = String c t' -> "" = "" /\ t = t'). now intros [= ->].
  - change (String c t = String a' (s' +:+ String c t') -> "" = String a' s' /\ t = t').
    intros [= <- _]. cbn in Hs'. now rewrite Ascii.eqb_refl in Hs'.
  - change (String a (s +:+ String c t) = String c t' -> String a s = "" /\ t = t').
    intros [= -> _]. cbn in Hs. now rewrite Ascii.eqb_refl in Hs.
  - change (String a (s +:+ String c t) = String a' (s' +:+ String c t') ->
            String a s = String a' s' /\ t = t').
    intros [= <- H]. cbn in Hs, Hs'.
    apply orb_false_iff in Hs as [_ Hs]. apply orb_false_iff in Hs' as [_ Hs'].
    destruct (IH s' Hs Hs' H) as [-> ->]. now split.
Qed.

(** X8: the tokens are inserted in the cookie header as they are: the
    header gives both tokens back when the first holds no semicolon, and
    without that two different pairs of tokens can make the same header. *)
Theorem cookie_header_determines_tokens :
  (forall v1 v2 v1' v2' : string,
      contains_char ";" v1 = false -> contains_char ";" v1' = false ->
      cookie_header v1 v2 = cookie_header v1' v2' ->
      v1 = v1' /\ v2 = v2') /\
  (forall v1 v2 : string,
      cookie_header (v1 +:+ "; overleaf_session2=" +:+ v2) "" =
      cookie_header v1 (v2 +:+ "; overleaf_session2=") /\
      v2 +:+ "; overleaf_session2=" <> "").
Proof.
  split.
  - intros v1 v2 v1' v2' H1 H1'. rewrite !cookie_header_eq. intros [= H].
    change (v1 +:+ String ";" (" overleaf_session2=" +:+ v2) =
            v1' +:+ String ";" (" overleaf_session2=" +:+ v2')) in H.
    destruct (split_at_first _ _ _ _ _ H1 H1' H) as [-> H2].
    apply string_app_inv_head in H2. now split.
  - intros v1 v2. split; [| now destruct v2].
    rewrite !cookie_header_eq. f_equal.
    rewrite !string_app_assoc, string_app_empty_r. reflexivity.
Qed.

(** ** The bound on the iterations *)




(** ** A wait that fails *)

Lemma wait_fails (w : world) (s : store) (e : exn) :
  callbacks s = callbacks armed -> project_infos s = VNone ->
  forallb harmless (incoming (wait_reply w (waits s))) = true ->
  failure (wait_reply w (waits s)) = Some e ->
  result (wait w 1 s) = Raised e.
Proof.
  intros Hc Hs Hev Hfail. rewrite wait_run, answer_run. cbv zeta.
  destruct (dispatch_harmless (incoming (wait_reply w (waits s)))
              (Store (project_infos s) (callbacks s) (S (waits s))) Hc Hs Hev) as [Hr _].
  now rewrite Hr, Hfail.
Qed.

(** X10: an exception that the library raises from a wait of the loop is
    not caught and the wait is not tried again: when the waits before
    brought nothing, [main] raises that exception after exactly that many
    waits plus one, prints nothing and does not disconnect. *)
Theorem library_error_in_loop_propagates
    (v1 v2 project_id : string) (w : world) (fuel k : nat) (e : exn) :
  SocketIO_raises w = None ->
  result (connection_engine w start) = Normal tt ->
  (forall j, (j < k)%nat -> uneventful (wait_reply w j) = true) ->
  forallb harmless (incoming (wait_reply w k)) = true ->
  failure (wait_reply w k) = Some e ->
  (k < fuel)%nat ->
  let r := main v1 v2 project_id w fuel in
  result r = Raised e /\
  count is_wait (emitted r) = S k /\
  count is_print (emitted r) = 0%nat /\
  count is_disconnect (emitted r) = 0%nat.
Proof.
  intros HS HC Hq Hev Hfail Hk. cbv zeta.
  remember (fuel - S k)%nat as f eqn:Hf.
  assert (Hfuel : fuel = (k + S f)%nat) by lia. clear Hf Hk. subst fuel.
  destruct (main_after_handshake v1 v2 project_id w (k + S f) HS HC)
    as (pre0 & Hearly0 & Hw0 & ->).
  cbv zeta. rewrite after_arming_run.
  destruct (poll_after_quiet_waits w k (S f) armed eq_refl eq_refl)
    as (quiet & Hcq & Heq & ->); [exact Hq |].
  cbv zeta. set (sk := Store VNone (callbacks armed) (waits armed + k)).
  rewrite (poll_iterate w f sk) by reflexivity.
  pose proof (wait_fails w sk e eq_refl eq_refl Hev Hfail) as Hr.
  rewrite (bind_raised _ _ _ _ Hr). cbn [result emitted final].
  pose proof (wait_early w sk) as Hwe.
  split_and!; [reflexivity | | |]; rewrite !count_app.
  - rewrite Hw0, Hcq, count_wait_one. lia.
  - now rewrite !(count_early is_print) by (now intros [] || assumption).
  - now rewrite !(count_early is_disconnect) by (now intros [] || assumption).
Qed.

Lemma library_error_in_loop_propagates_witness :
  let r := main "abc" "xyz" "60f" connection_drops 9 in
  result r = Raised (LibraryError "ConnectionError" "connection lost") /\
  count is_wait (emitted r) = 2%nat /\
  count is_print (emitted r) = 0%nat /\
  count is_disconnect (emitted r) = 0%nat.
Proof.
  apply (library_error_in_loop_propagates "abc" "xyz" "60f" connection_drops 9 1);
    try reflexivity.
  - intros [|j] Hj; [reflexivity | lia].
  - lia.
Defined.
